(** * log_merger: merging bWell JSON log files

    A shallow embedding of [log_merger.py] and the properties of its merge
    engine.  The file has three layers:

    - the Python values that [json.load] produces, with the fragment of the
      Python semantics the program relies on ([dict.get], [in], [<], [+],
      [list.sort]);
    - the functions of the program, [load_json_file], [is_merged_file],
      [create_merged_metadata] and [merge_log_files], over immutable trees;
    - the same lineage code over a store of mutable objects (module [Heap]),
      where the sharing between the input and the result is explicit. *)

From Stdlib Require Import List ZArith QArith Bool String Ascii Lia.
From Stdlib Require Import Permutation Sorted Arith PeanoNat.
Import ListNotations.

Local Open Scope string_scope.
Local Open Scope list_scope.
Local Open Scope Z_scope.

Set Implicit Arguments.
Set Warnings "-register-all".

(* ================================================================== *)
(** ** Python values read from JSON *)

(** A Python [float]: not-a-number, an infinity, or the dyadic rational
    [m * 2^e] (every finite binary64 value has this shape). *)
Inductive pyfloat : Type :=
| FNaN
| FInf (negative : bool)
| FFin (m e : Z).

(** What [json.load] returns: [None], [bool], [int], [float], [str],
    [list] and [dict].  A [dict] keeps its items in insertion order. *)
Inductive json : Type :=
| JNull
| JBool (b : bool)
| JInt (z : Z)
| JFloat (f : pyfloat)
| JStr (s : string)
| JArr (xs : list json)
| JObj (kvs : list (string * json)).

(** The exceptions the program can meet.  The built-in ones raised by the
    interpreter carry no message here; the ones the program raises itself
    carry theirs. *)
Inductive exn : Type :=
| ValueError (msg : string)
| FileNotFoundError (msg : string)
| Exception (msg : string)
| TypeError
| AttributeError
| KeyError.

Inductive result (A : Type) : Type :=
| Ok (a : A)
| Raise (e : exn).

Arguments Ok {A} a.
Arguments Raise {A} e.

Definition bind {A B : Type} (m : result A) (k : A -> result B) : result B :=
  match m with
  | Ok a => k a
  | Raise e => Raise e
  end.

Notation "x <- m ;; k" := (bind m (fun x => k))
  (at level 61, m at next level, right associativity).
Notation "' p <- m ;; k" := (bind m (fun x => let p := x in k))
  (at level 61, p pattern, m at next level, right associativity).

Fixpoint mapM {A B : Type} (f : A -> result B) (l : list A) : result (list B) :=
  match l with
  | [] => Ok []
  | a :: l' => b <- f a ;; bs <- mapM f l' ;; Ok (b :: bs)
  end.

(* ------------------------------------------------------------------ *)
(** *** Dictionaries *)

(** [k in d] *)
Fixpoint dict_contains (k : string) (d : list (string * json)) : bool :=
  match d with
  | [] => false
  | (k', _) :: d' => if String.eqb k k' then true else dict_contains k d'
  end.

(** [d.get(k)], with [None] standing for an absent key *)
Fixpoint dict_lookup (k : string) (d : list (string * json)) : option json :=
  match d with
  | [] => None
  | (k', v) :: d' => if String.eqb k k' then Some v else dict_lookup k d'
  end.

(** [d.get(k, default)] *)
Definition dict_get (k : string) (default : json) (d : list (string * json)) : json :=
  match dict_lookup k d with
  | Some v => v
  | None => default
  end.

(** [d[k] = v]: an existing key keeps its place, a new one goes last. *)
Fixpoint dict_set (k : string) (v : json) (d : list (string * json))
  : list (string * json) :=
  match d with
  | [] => [(k, v)]
  | (k', v') :: d' =>
      if String.eqb k k' then (k', v) :: d' else (k', v') :: dict_set k v d'
  end.

(** [x.get(k, default)] on any value: only a [dict] has the method. *)
Definition py_get (x : json) (k : string) (default : json) : result json :=
  match x with
  | JObj d => Ok (dict_get k default d)
  | _ => Raise AttributeError
  end.

(** [a + b] where [b] is a list: list concatenation, a [TypeError] for any
    other left operand that JSON can produce. *)
Definition py_add_list (a : json) (b : list json) : result (list json) :=
  match a with
  | JArr xs => Ok (xs ++ b)
  | _ => Raise TypeError
  end.

(** [x.append(v)]: only a [list] has the method. *)
Definition py_append (x : json) (v : json) : result json :=
  match x with
  | JArr xs => Ok (JArr (xs ++ [v]))
  | _ => Raise AttributeError
  end.

(* ------------------------------------------------------------------ *)
(** *** Numbers and their order *)

(** The extended rationals in which [bool], [int] and [float] values are
    compared.  Python compares an [int] with a [float] exactly. *)
Inductive xq : Type :=
| XNegInf
| XFin (q : Q)
| XPosInf.

Definition Qltb (p q : Q) : bool :=
  match Qcompare p q with
  | Lt => true
  | _ => false
  end.

Definition xq_ltb (a b : xq) : bool :=
  match a, b with
  | XNegInf, XNegInf => false
  | XNegInf, _ => true
  | _, XNegInf => false
  | XFin p, XFin q => Qltb p q
  | XFin _, XPosInf => true
  | XPosInf, _ => false
  end.

Definition xq_eqb (a b : xq) : bool :=
  match a, b with
  | XNegInf, XNegInf => true
  | XPosInf, XPosInf => true
  | XFin p, XFin q => Qeq_bool p q
  | _, _ => false
  end.

Definition float_val (f : pyfloat) : option xq :=
  match f with
  | FNaN => None
  | FInf true => Some XNegInf
  | FInf false => Some XPosInf
  | FFin m e => Some (XFin (inject_Z m * Qpower (2 # 1) e))
  end.

(** A value of Python's numeric tower, or not. *)
Inductive numeric : Type :=
| NotNumeric
| NumNaN
| Num (x : xq).

Definition num_of (j : json) : numeric :=
  match j with
  | JBool b => Num (XFin (inject_Z (if b then 1 else 0)))
  | JInt z => Num (XFin (inject_Z z))
  | JFloat f => match float_val f with Some x => Num x | None => NumNaN end
  | _ => NotNumeric
  end.

(* ------------------------------------------------------------------ *)
(** *** [==] and [<] *)

(** [a == b] as a container compares its items.  Items are compared with an
    identity shortcut, and the [json] module hands out one shared object for
    every [NaN] it reads: inside a list or a dict a [NaN] equals a [NaN].
    Numbers are equal by value across [bool], [int] and [float]; dicts are
    equal when they have the same keys with equal values, in any order. *)
Fixpoint py_eq (a b : json) {struct a} : bool :=
  match a with
  | JNull => match b with JNull => true | _ => false end
  | JStr s => match b with JStr t => String.eqb s t | _ => false end
  | JArr xs =>
      match b with
      | JArr ys =>
          (fix items (xs ys : list json) {struct xs} : bool :=
             match xs, ys with
             | [], [] => true
             | x :: xs', y :: ys' => py_eq x y && items xs' ys'
             | _, _ => false
             end) xs ys
      | _ => false
      end
  | JObj d =>
      match b with
      | JObj d' =>
          Nat.eqb (List.length d) (List.length d') &&
          (fix items (d : list (string * json)) {struct d} : bool :=
             match d with
             | [] => true
             | (k, v) :: r =>
                 match dict_lookup k d' with
                 | Some v' => py_eq v v' && items r
                 | None => false
                 end
             end) d
      | _ => false
      end
  | JBool _ | JInt _ | JFloat _ =>
      match num_of a, num_of b with
      | Num x, Num y => xq_eqb x y
      | NumNaN, NumNaN => true
      | _, _ => false
      end
  end.

(** [a < b]; [None] is the [TypeError] of an unsupported comparison.
    Numbers compare by value (anything against [NaN] is false), strings by
    code point, lists by their first differing item and then by length;
    [None] and dicts support no ordering, nor do values of different kinds. *)
Fixpoint py_lt (a b : json) {struct a} : option bool :=
  match a with
  | JStr s => match b with JStr t => Some (String.ltb s t) | _ => None end
  | JArr xs =>
      match b with
      | JArr ys =>
          (fix items (xs ys : list json) {struct xs} : option bool :=
             match xs, ys with
             | [], [] => Some false
             | [], _ :: _ => Some true
             | _ :: _, [] => Some false
             | x :: xs', y :: ys' =>
                 if py_eq x y then items xs' ys' else py_lt x y
             end) xs ys
      | _ => None
      end
  | JBool _ | JInt _ | JFloat _ =>
      match num_of a, num_of b with
      | Num x, Num y => Some (xq_ltb x y)
      | NotNumeric, _ | _, NotNumeric => None
      | _, _ => Some false
      end
  | JNull | JObj _ => None
  end.

(** [sub in s] for strings *)
Fixpoint str_contains (sub s : string) : bool :=
  String.prefix sub s ||
  match s with
  | EmptyString => false
  | String _ s' => str_contains sub s'
  end.

(** ["data" in x]: a key of a dict, an item of a list, a substring of a
    string; the other values are not containers. *)
Definition py_contains (k : string) (x : json) : result bool :=
  match x with
  | JObj d => Ok (dict_contains k d)
  | JArr xs => Ok (existsb (py_eq (JStr k)) xs)
  | JStr s => Ok (str_contains k s)
  | _ => Raise TypeError
  end.

(** [x[k]] with a string [k]: only a dict can be indexed by a string. *)
Definition py_getitem (x : json) (k : string) : result json :=
  match x with
  | JObj d => match dict_lookup k d with Some v => Ok v | None => Raise KeyError end
  | _ => Raise TypeError
  end.

(* ================================================================== *)
(** ** [list.sort(key=...)] *)

(** CPython (as of version 3.11) sorts a list of fewer than 64 items in one
    pass: it finds the run the list starts with ([count_run]), reverses it
    when it is strictly descending, and inserts every later item into the
    sorted prefix by binary search ([binarysort]).  Longer lists are cut into
    such runs, which are then merged with the same [<]; a sort that runs to
    its end returns the same list either way, the one stable sorted
    arrangement.  The sort works on the list in place: when a comparison
    raises, the items stay where the sort had moved them. *)
Section ListSort.

Variables K V : Type.
Variable lt : K -> K -> option bool.

(** The length of the strictly descending run that [prev] starts, [n]
    items long so far. *)
Fixpoint run_descending (prev : K) (l : list (K * V)) (n : nat) : option nat :=
  match l with
  | [] => Some n
  | x :: l' =>
      match lt (fst x) prev with
      | None => None
      | Some true => run_descending (fst x) l' (S n)
      | Some false => Some n
      end
  end.

Fixpoint run_ascending (prev : K) (l : list (K * V)) (n : nat) : option nat :=
  match l with
  | [] => Some n
  | x :: l' =>
      match lt (fst x) prev with
      | None => None
      | Some true => Some n
      | Some false => run_ascending (fst x) l' (S n)
      end
  end.

(** [count_run]: the length of the first run and whether it descends. *)
Definition count_run (l : list (K * V)) : option (nat * bool) :=
  match l with
  | a :: b :: rest =>
      match lt (fst b) (fst a) with
      | None => None
      | Some true =>
          match run_descending (fst b) rest 2%nat with
          | Some n => Some (n, true)
          | None => None
          end
      | Some false =>
          match run_ascending (fst b) rest 2%nat with
          | Some n => Some (n, false)
          | None => None
          end
      end
  | _ => Some (List.length l, false)
  end.

(** The binary search of [binarysort] in [a[l:r]]: where [pivot] belongs,
    after the items that are not greater. *)
Fixpoint bsearch (pivot : K) (a : list (K * V)) (l r fuel : nat) : option nat :=
  match fuel with
  | O => Some l
  | S fuel' =>
      if Nat.ltb l r then
        let p := (l + Nat.div2 (r - l))%nat in
        match nth_error a p with
        | Some x =>
            match lt pivot (fst x) with
            | None => None
            | Some true => bsearch pivot a l p fuel'
            | Some false => bsearch pivot a (S p) r fuel'
            end
        | None => Some l
        end
      else Some l
  end.

(** [binarysort]: [sorted] is the prefix already in order, [rest] the
    items still to insert.  Returns the list and whether every comparison
    returned. *)
Fixpoint binarysort (sorted rest : list (K * V)) : list (K * V) * bool :=
  match rest with
  | [] => (sorted, true)
  | x :: rest' =>
      match bsearch (fst x) sorted 0%nat (List.length sorted) (List.length sorted) with
      | None => (sorted ++ rest, false)
      | Some pos => binarysort (firstn pos sorted ++ x :: skipn pos sorted) rest'
      end
  end.

(** The sort of a short list: the final order of the items, and [true]
    when no comparison raised. *)
Definition list_sort (l : list (K * V)) : list (K * V) * bool :=
  if Nat.ltb (List.length l) 2 then (l, true)
  else
    match count_run l with
    | None => (l, false)
    | Some (n, descending) =>
        let run := firstn n l in
        binarysort (if descending then rev run else run) (skipn n l)
    end.

End ListSort.

(* ================================================================== *)
(** ** The program *)

(** What a path leads to when [load_json_file] opens it. *)
Inductive file : Type :=
| NoFile
| BadJson (detail : string)
| Unreadable (detail : string)
| Content (j : json).

Definition filesystem : Type := string -> file.

Definition load_json_file (fs : filesystem) (filepath : string) : result json :=
  match fs filepath with
  | Content j => Ok j
  | NoFile => Raise (FileNotFoundError ("File not found: " ++ filepath))
  | BadJson e =>
      Raise (ValueError ("Invalid JSON in file " ++ filepath ++ ": " ++ e))
  | Unreadable e =>
      Raise (Exception ("Error reading file " ++ filepath ++ ": " ++ e))
  end.

Definition is_merged_file (log_data : json) : result bool :=
  py_contains "merged_sources" log_data.

(** [len(l) + 1] *)
Definition len_plus_1 (l : list json) : json :=
  JInt (Z.of_nat (List.length l) + 1).

(** [xs + b] for a list [xs]: [b] has to be a list too. *)
Definition py_list_add (xs : list json) (b : json) : result (list json) :=
  match b with
  | JArr ys => Ok (xs ++ ys)
  | _ => Raise TypeError
  end.

(** [now] is what [datetime.now().isoformat()] returns during the call.
    The list under ["previous_merges"] is the one [existing_sources] holds
    (or a new empty one), and [append] extends it after it was stored in
    [merged_info]: the result shows the extended list. *)
Definition create_merged_metadata (now : string) (base_file : string)
    (additional_files : list string) (base_data : json) : result json :=
  let additional := map JStr additional_files in
  let merged_info :=
    [ ("merged_at", JStr now);
      ("base_file", JStr base_file);
      ("additional_files", JArr additional);
      ("total_files_merged", len_plus_1 additional) ] in
  merged <- is_merged_file base_data ;;
  if merged : bool then
    existing_sources <- py_get base_data "merged_sources" (JObj []) ;;
    inherited_base <- py_get existing_sources "base_file" (JStr base_file) ;;
    let merged_info := dict_set "base_file" inherited_base merged_info in
    inherited <- py_get existing_sources "additional_files" (JArr []) ;;
    all_additional <- py_add_list inherited additional ;;
    let merged_info := dict_set "additional_files" (JArr all_additional) merged_info in
    let merged_info :=
      dict_set "total_files_merged" (len_plus_1 all_additional) merged_info in
    previous <- py_get existing_sources "previous_merges" (JArr []) ;;
    let merged_info := dict_set "previous_merges" previous merged_info in
    match previous with
    | JArr history =>
        merged_at <- py_get existing_sources "merged_at" JNull ;;
        first <- py_get existing_sources "base_file" JNull ;;
        others <- py_get existing_sources "additional_files" (JArr []) ;;
        files_in_merge <- py_list_add [first] others ;;
        let entry :=
          JObj [ ("merged_at", merged_at);
                 ("files_in_merge", JArr files_in_merge) ] in
        Ok (JObj (dict_set "previous_merges" (JArr (history ++ [entry])) merged_info))
    | _ => Raise AttributeError
    end
  else Ok (JObj merged_info).

Definition get_timestamp (record : json) : result json :=
  py_get record "timestamp" (JInt 0).

(** [records.sort(key=get_timestamp)]: the keys are computed first, and an
    exception of the key function leaves the sort at once.  Returns the
    records as the sort left them and whether it ran to its end; [false] is
    a [TypeError] from a comparison. *)
Definition sort_records (records : list json) : result (list json * bool) :=
  keys <- mapM get_timestamp records ;;
  let (sorted, finished) := list_sort py_lt (combine keys records) in
  Ok (map snd sorted, finished).

Definition missing_data_message (filepath : string) : string :=
  "File " ++ filepath ++ " is missing required 'data' field".

Definition invalid_data_message (filepath : string) : string :=
  "File " ++ filepath ++ " 'data' field must be a list".

(** The body of the validation loop for one loaded file. *)
Definition validate (entry : string * json) : result unit :=
  let (filepath, log_data) := entry in
  present <- py_contains "data" log_data ;;
  if negb present then Raise (ValueError (missing_data_message filepath))
  else
    data <- py_getitem log_data "data" ;;
    match data with
    | JArr _ => Ok tt
    | _ => Raise (ValueError (invalid_data_message filepath))
    end.

(** [log_data["data"]] as the list that [extend] reads *)
Definition data_of (log_data : json) : result (list json) :=
  data <- py_getitem log_data "data" ;;
  match data with
  | JArr records => Ok records
  | _ => Raise TypeError
  end.

(** The part of [merge_log_files] that follows the loading of the files.
    The [try] around the sort lets a [TypeError] of a comparison pass and
    keeps the records as the sort left them. *)
Definition merge_loaded (now : string) (log_data_list : list (string * json))
  : result json :=
  match log_data_list with
  | [] => Raise KeyError
  | (base_filepath, base_data) :: rest =>
      _ <- mapM validate log_data_list ;;
      match base_data with
      | JObj base_items =>
          let merged_result := base_items in
          base_records <- data_of base_data ;;
          let additional_files := map fst rest in
          more_records <- mapM (fun entry => data_of (snd entry)) rest ;;
          let all_data_records := base_records ++ List.concat more_records in
          sorted <- sort_records all_data_records ;;
          let merged_result := dict_set "data" (JArr (fst sorted)) merged_result in
          merged_sources <-
            create_merged_metadata now base_filepath additional_files base_data ;;
          Ok (JObj (dict_set "merged_sources" merged_sources merged_result))
      | _ => Raise TypeError
      end
  end.

Definition merge_log_files (now : string) (fs : filesystem)
    (file_paths : list string) : result json :=
  if Nat.ltb (List.length file_paths) 2 then
    Raise (ValueError "At least 2 files are required for merging")
  else
    log_data_list <-
      mapM (fun filepath =>
              log_data <- load_json_file fs filepath ;; Ok (filepath, log_data))
           file_paths ;;
    merge_loaded now log_data_list.

(** A file system that holds the given documents and nothing else. *)
Fixpoint files (docs : list (string * json)) : filesystem :=
  fun path =>
    match docs with
    | [] => NoFile
    | (p, j) :: docs' => if String.eqb path p then Content j else files docs' path
    end.

(* ================================================================== *)
(** ** The program over a store of objects *)

(** Python lists and dicts are objects with an identity: two names can hold
    the same list, and [append] through one is seen through the other.  This
    module runs the program on a store in which every list and dict lives at
    a location, so that what the program shares and what it changes can be
    told apart. *)
Module Heap.

Definition loc : Type := nat.

Inductive val : Type :=
| VNone
| VBool (b : bool)
| VInt (z : Z)
| VFloat (f : pyfloat)
| VStr (s : string)
| VRef (l : loc).

Inductive obj : Type :=
| OList (items : list val)
| ODict (items : list (string * val)).

(** The object at location [l] is the [l]-th of the store. *)
Definition store : Type := list obj.

(** A computation reads and changes the store and returns or raises. *)
Definition M (A : Type) : Type := store -> result A * store.

Definition ret {A : Type} (a : A) : M A := fun h => (Ok a, h).

Definition raise {A : Type} (e : exn) : M A := fun h => (Raise e, h).

Definition bindM {A B : Type} (m : M A) (k : A -> M B) : M B :=
  fun h =>
    match m h with
    | (Ok a, h') => k a h'
    | (Raise e, h') => (Raise e, h')
    end.

Notation "x <~ m ;; k" := (bindM m (fun x => k))
  (at level 61, m at next level, right associativity).
Notation "m ;;; k" := (bindM m (fun _ => k))
  (at level 61, right associativity).

Fixpoint forM {A B : Type} (f : A -> M B) (l : list A) : M (list B) :=
  match l with
  | [] => ret []
  | a :: l' => b <~ f a ;; bs <~ forM f l' ;; ret (b :: bs)
  end.

(** A new object, at the end of the store. *)
Definition alloc (o : obj) : M val :=
  fun h => (Ok (VRef (List.length h)), h ++ [o]).

Definition read (l : loc) : M obj :=
  fun h =>
    match nth_error h l with
    | Some o => (Ok o, h)
    | None => (Raise KeyError, h)
    end.

Fixpoint update (h : store) (l : loc) (o : obj) : store :=
  match h, l with
  | [], _ => []
  | _ :: h', O => o :: h'
  | o' :: h', S l' => o' :: update h' l' o
  end.

Definition write (l : loc) (o : obj) : M unit :=
  fun h => (Ok tt, update h l o).

(** [json.load]: every list and dict of the document becomes a new object,
    the items first. *)
Fixpoint load (j : json) (h : store) {struct j} : val * store :=
  match j with
  | JNull => (VNone, h)
  | JBool b => (VBool b, h)
  | JInt z => (VInt z, h)
  | JFloat f => (VFloat f, h)
  | JStr s => (VStr s, h)
  | JArr xs =>
      let '(vs, h') :=
        (fix items (xs : list json) (h : store) {struct xs} : list val * store :=
           match xs with
           | [] => ([], h)
           | x :: xs' =>
               let '(v, h1) := load x h in
               let '(vs, h2) := items xs' h1 in
               (v :: vs, h2)
           end) xs h in
      (VRef (List.length h'), h' ++ [OList vs])
  | JObj kvs =>
      let '(vs, h') :=
        (fix items (kvs : list (string * json)) (h : store) {struct kvs}
           : list (string * val) * store :=
           match kvs with
           | [] => ([], h)
           | (k, x) :: kvs' =>
               let '(v, h1) := load x h in
               let '(vs, h2) := items kvs' h1 in
               ((k, v) :: vs, h2)
           end) kvs h in
      (VRef (List.length h'), h' ++ [ODict vs])
  end.

(** The document that a value stands for in a store; [fuel] bounds the
    depth. *)
Fixpoint reify (fuel : nat) (h : store) (v : val) : option json :=
  match v with
  | VNone => Some JNull
  | VBool b => Some (JBool b)
  | VInt z => Some (JInt z)
  | VFloat f => Some (JFloat f)
  | VStr s => Some (JStr s)
  | VRef l =>
      match fuel with
      | O => None
      | S fuel' =>
          match nth_error h l with
          | Some (OList vs) =>
              option_map JArr
                (fold_right
                   (fun v acc =>
                      match reify fuel' h v, acc with
                      | Some j, Some js => Some (j :: js)
                      | _, _ => None
                      end) (Some []) vs)
          | Some (ODict kvs) =>
              option_map JObj
                (fold_right
                   (fun kv acc =>
                      match reify fuel' h (snd kv), acc with
                      | Some j, Some js => Some ((fst kv, j) :: js)
                      | _, _ => None
                      end) (Some []) kvs)
          | None => None
          end
      end
  end.

(** The document at [v], read to any depth the store can have. *)
Definition contents (h : store) (v : val) : option json :=
  reify (S (List.length h)) h v.

Fixpoint lookup (k : string) (d : list (string * val)) : option val :=
  match d with
  | [] => None
  | (k', v) :: d' => if String.eqb k k' then Some v else lookup k d'
  end.

Fixpoint set_item (k : string) (v : val) (d : list (string * val))
  : list (string * val) :=
  match d with
  | [] => [(k, v)]
  | (k', v') :: d' =>
      if String.eqb k k' then (k', v) :: d' else (k', v') :: set_item k v d'
  end.

(** [k in x] for a string [k] *)
Definition py_contains (k : string) (x : val) : M bool :=
  match x with
  | VRef l =>
      o <~ read l ;;
      match o with
      | ODict d => ret (match lookup k d with Some _ => true | None => false end)
      | OList vs =>
          ret (existsb (fun v => match v with
                                 | VStr s => String.eqb k s
                                 | _ => false
                                 end) vs)
      end
  | VStr s => ret (str_contains k s)
  | _ => raise TypeError
  end.

(** [x[k]] for a string [k] *)
Definition py_getitem (x : val) (k : string) : M val :=
  match x with
  | VRef l =>
      o <~ read l ;;
      match o with
      | ODict d => match lookup k d with Some v => ret v | None => raise KeyError end
      | OList _ => raise TypeError
      end
  | _ => raise TypeError
  end.

(** [x.get(k, default)] *)
Definition py_get (x : val) (k : string) (default : val) : M val :=
  match x with
  | VRef l =>
      o <~ read l ;;
      match o with
      | ODict d => ret (match lookup k d with Some v => v | None => default end)
      | OList _ => raise AttributeError
      end
  | _ => raise AttributeError
  end.

(** [x[k] = v] on a dict *)
Definition py_setitem (x : val) (k : string) (v : val) : M unit :=
  match x with
  | VRef l =>
      o <~ read l ;;
      match o with
      | ODict d => write l (ODict (set_item k v d))
      | OList _ => raise TypeError
      end
  | _ => raise TypeError
  end.

(** The items of [x] when it is a list; [e] is raised otherwise. *)
Definition list_items (e : exn) (x : val) : M (list val) :=
  match x with
  | VRef l =>
      o <~ read l ;;
      match o with
      | OList vs => ret vs
      | ODict _ => raise e
      end
  | _ => raise e
  end.

(** [x.append(v)]: the list at [x] itself grows. *)
Definition py_append (x : val) (v : val) : M unit :=
  match x with
  | VRef l =>
      o <~ read l ;;
      match o with
      | OList vs => write l (OList (vs ++ [v]))
      | ODict _ => raise AttributeError
      end
  | _ => raise AttributeError
  end.

(** [x.extend(y)] for a list [x] *)
Definition py_extend (x : val) (y : val) : M unit :=
  match x with
  | VRef l =>
      o <~ read l ;;
      match o with
      | OList vs => ws <~ list_items TypeError y ;; write l (OList (vs ++ ws))
      | ODict _ => raise AttributeError
      end
  | _ => raise AttributeError
  end.

(** [a + b], defined between two lists: a new list. *)
Definition py_add (a b : val) : M val :=
  xs <~ list_items TypeError a ;;
  ys <~ list_items TypeError b ;;
  alloc (OList (xs ++ ys)).

(** [len(x) + 1] for a list [x] *)
Definition len_plus_1 (x : val) : M val :=
  xs <~ list_items TypeError x ;;
  ret (VInt (Z.of_nat (List.length xs) + 1)).

(** [x.copy()] on a dict: a new dict with the same items. *)
Definition py_copy (x : val) : M val :=
  match x with
  | VRef l =>
      o <~ read l ;;
      match o with
      | ODict d => alloc (ODict d)
      | OList vs => alloc (OList vs)
      end
  | _ => raise AttributeError
  end.

Definition is_merged_file (log_data : val) : M bool :=
  py_contains "merged_sources" log_data.

Definition create_merged_metadata (now : string) (base_file : string)
    (additional_files : val) (base_data : val) : M val :=
  total <~ len_plus_1 additional_files ;;
  merged_info <~ alloc (ODict [ ("merged_at", VStr now);
                                ("base_file", VStr base_file);
                                ("additional_files", additional_files);
                                ("total_files_merged", total) ]) ;;
  merged <~ is_merged_file base_data ;;
  if merged : bool then
    empty <~ alloc (ODict []) ;;
    existing_sources <~ py_get base_data "merged_sources" empty ;;
    inherited_base <~ py_get existing_sources "base_file" (VStr base_file) ;;
    py_setitem merged_info "base_file" inherited_base ;;;
    empty <~ alloc (OList []) ;;
    inherited <~ py_get existing_sources "additional_files" empty ;;
    all_additional <~ py_add inherited additional_files ;;
    py_setitem merged_info "additional_files" all_additional ;;;
    all_additional <~ py_getitem merged_info "additional_files" ;;
    total <~ len_plus_1 all_additional ;;
    py_setitem merged_info "total_files_merged" total ;;;
    empty <~ alloc (OList []) ;;
    previous <~ py_get existing_sources "previous_merges" empty ;;
    py_setitem merged_info "previous_merges" previous ;;;
    previous <~ py_getitem merged_info "previous_merges" ;;
    list_items AttributeError previous ;;;
    merged_at <~ py_get existing_sources "merged_at" VNone ;;
    first <~ py_get existing_sources "base_file" VNone ;;
    first <~ alloc (OList [first]) ;;
    empty <~ alloc (OList []) ;;
    others <~ py_get existing_sources "additional_files" empty ;;
    files_in_merge <~ py_add first others ;;
    entry <~ alloc (ODict [ ("merged_at", merged_at);
                            ("files_in_merge", files_in_merge) ]) ;;
    py_append previous entry ;;;
    ret merged_info
  else ret merged_info.

Definition get_timestamp (record : val) : M val :=
  py_get record "timestamp" (VInt 0).

(** [x.sort(key=get_timestamp)] on the list at [x].  The keys are compared
    as the documents they stand for.  The list is left as the sort left it,
    and a comparison that raised is a [TypeError]. *)
Definition sort_records (x : val) : M unit :=
  match x with
  | VRef l =>
      records <~ list_items AttributeError x ;;
      keys <~ forM get_timestamp records ;;
      fun h =>
        let lt a b :=
          match contents h a, contents h b with
          | Some ja, Some jb => py_lt ja jb
          | _, _ => None
          end in
        let (sorted, finished) := list_sort lt (combine keys records) in
        let h' := update h l (OList (map snd sorted)) in
        if finished : bool then (Ok tt, h') else (Raise TypeError, h')
  | _ => raise AttributeError
  end.

(** [try: m except (TypeError, KeyError): pass] *)
Definition try_pass (m : M unit) : M unit :=
  fun h =>
    match m h with
    | (Raise TypeError, h') | (Raise KeyError, h') => (Ok tt, h')
    | r => r
    end.

Definition validate (entry : string * val) : M unit :=
  let (filepath, log_data) := entry in
  present <~ py_contains "data" log_data ;;
  if negb present then raise (ValueError (missing_data_message filepath))
  else
    data <~ py_getitem log_data "data" ;;
    match data with
    | VRef l =>
        o <~ read l ;;
        match o with
        | OList _ => ret tt
        | ODict _ => raise (ValueError (invalid_data_message filepath))
        end
    | _ => raise (ValueError (invalid_data_message filepath))
    end.

Definition load_json_file (fs : filesystem) (filepath : string) : M val :=
  match fs filepath with
  | Content j => fun h => let (v, h') := load j h in (Ok v, h')
  | NoFile => raise (FileNotFoundError ("File not found: " ++ filepath))
  | BadJson e =>
      raise (ValueError ("Invalid JSON in file " ++ filepath ++ ": " ++ e))
  | Unreadable e =>
      raise (Exception ("Error reading file " ++ filepath ++ ": " ++ e))
  end.

(** [merge_log_files], returning with the merged document the documents it
    loaded, so that their state at the end of the call can be examined. *)
Definition merge_log_files (now : string) (fs : filesystem)
    (file_paths : list string) : M (list (string * val) * val) :=
  if Nat.ltb (List.length file_paths) 2 then
    raise (ValueError "At least 2 files are required for merging")
  else
    log_data_list <~
      forM (fun filepath =>
              log_data <~ load_json_file fs filepath ;; ret (filepath, log_data))
           file_paths ;;
    match log_data_list with
    | [] => raise KeyError
    | (base_filepath, base_data) :: rest =>
        forM validate log_data_list ;;;
        merged_result <~ py_copy base_data ;;
        all_data_records <~ alloc (OList []) ;;
        base_records <~ py_getitem base_data "data" ;;
        py_extend all_data_records base_records ;;;
        additional_files <~ alloc (OList []) ;;
        forM (fun entry : string * val =>
                py_append additional_files (VStr (fst entry)) ;;;
                records <~ py_getitem (snd entry) "data" ;;
                py_extend all_data_records records) rest ;;;
        try_pass (sort_records all_data_records) ;;;
        py_setitem merged_result "data" all_data_records ;;;
        merged_sources <~
          create_merged_metadata now base_filepath additional_files base_data ;;
        py_setitem merged_result "merged_sources" merged_sources ;;;
        ret (log_data_list, merged_result)
    end.

End Heap.

(* ================================================================== *)
(** ** Vocabulary of the specification *)

(** The reference the sort is compared with: insertion from the left, each
    item after the items that are not greater. *)
Section StableSort.

Variables K V : Type.
Variable ltb : K -> K -> bool.

Fixpoint insert (x : K * V) (l : list (K * V)) : list (K * V) :=
  match l with
  | [] => [x]
  | y :: l' => if ltb (fst x) (fst y) then x :: l else y :: insert x l'
  end.

Definition stable_sort (l : list (K * V)) : list (K * V) :=
  fold_left (fun acc x => insert x acc) l [].

(** [x] is not after [y] *)
Definition key_le (x y : K * V) : Prop := ltb (fst y) (fst x) = false.

(** [x] has the rank of [t]: neither is before the other. *)
Definition key_eqv (t : K) (x : K * V) : bool :=
  negb (ltb t (fst x)) && negb (ltb (fst x) t).

(** The key of [x] is one of those that [P] holds of. *)
Definition keyP (P : K -> Prop) (x : K * V) : Prop := P (fst x).

(** Every item is before the one that precedes it. *)
Fixpoint strictly_descending (l : list (K * V)) : bool :=
  match l with
  | [] => true
  | a :: l' =>
      match l' with
      | [] => true
      | b :: _ => ltb (fst b) (fst a) && strictly_descending l'
      end
  end.

End StableSort.

(** [j[k]] when [j] is an object that has the key *)
Definition field (k : string) (j : json) : option json :=
  match j with
  | JObj d => dict_lookup k d
  | _ => None
  end.

Definition is_object (j : json) : bool :=
  match j with
  | JObj _ => true
  | _ => false
  end.

(** A document passes the validation when it is an object whose [data] is a
    list. *)
Definition valid_document (doc : json) : bool :=
  match field "data" doc with
  | Some (JArr _) => true
  | _ => false
  end.

(** The records of a document, none if it has no list of them. *)
Definition records_of (doc : json) : list json :=
  match field "data" doc with
  | Some (JArr records) => records
  | _ => []
  end.

(** The records of the documents in concatenation order: the base's, then
    those of each additional document in input order. *)
Definition all_records (docs : list json) : list json :=
  flat_map records_of docs.

(** The effective timestamp: the record's own, or 0. *)
Definition timestamp_of (record : json) : json :=
  match record with
  | JObj d => dict_get "timestamp" (JInt 0) d
  | _ => JInt 0
  end.

(** A number: an [int], or a [float] other than not-a-number. *)
Definition is_number (j : json) : bool :=
  match j with
  | JInt _ => true
  | JFloat FNaN => false
  | JFloat _ => true
  | _ => false
  end.

(** The order and the equality of numbers by value *)
Definition num_ltb (a b : json) : bool :=
  match num_of a, num_of b with
  | Num x, Num y => xq_ltb x y
  | _, _ => false
  end.

Definition num_leb (a b : json) : bool := negb (num_ltb b a).

Definition same_time (a b : json) : bool :=
  negb (num_ltb a b) && negb (num_ltb b a).

(** A value that the order of numbers ranks: a [bool], an [int], or a
    [float] other than not-a-number. *)
Definition ranked (j : json) : Prop := exists x, num_of j = Num x.

(** The paths [file_paths] lead to the documents [docs], in this order. *)
Definition holds (fs : filesystem) (file_paths : list string) (docs : list json)
  : Prop :=
  map fs file_paths = map Content docs.

(** The records with their sort keys *)
Definition keyed (records : list json) : list (json * json) :=
  map (fun r => (timestamp_of r, r)) records.

(** The lineage of a merged document *)
Definition lineage (merged : json) : option json := field "merged_sources" merged.

Definition lineage_field (k : string) (merged : json) : option json :=
  match lineage merged with
  | Some l => field k l
  | None => None
  end.

(** [merged] with the [merged_at] of its lineage replaced by [t] *)
Definition with_merged_at (t : string) (merged : json) : json :=
  match merged with
  | JObj d =>
      match dict_lookup "merged_sources" d with
      | Some (JObj l) =>
          JObj (dict_set "merged_sources" (JObj (dict_set "merged_at" (JStr t) l)) d)
      | _ => merged
      end
  | _ => merged
  end.

(** The errors of the specification's taxonomy that the merge raises *)
Definition InsufficientInputs : exn :=
  ValueError "At least 2 files are required for merging".

Definition MissingDataField (identifier : string) : exn :=
  ValueError (missing_data_message identifier).

Definition InvalidDataType (identifier : string) : exn :=
  ValueError (invalid_data_message identifier).

(** The last character of a string *)
Fixpoint last_char (s : string) : option ascii :=
  match s with
  | EmptyString => None
  | String c EmptyString => Some c
  | String _ s' => last_char s'
  end.

(* ================================================================== *)
(** ** Example documents *)

Definition record (t : json) (v : string) : json :=
  JObj [("timestamp", t); ("v", JStr v)].

(** The two documents of the specification's example *)
Definition doc_a : json := JObj [("data", JArr [record (JInt 5) "a"])].

Definition doc_b : json := JObj [("data", JArr [record (JInt 2) "b"])].

Definition fs_ab : filesystem := files [("a.json", doc_a); ("b.json", doc_b)].

(** A document whose [data] is absent, and one whose [data] is a number *)
Definition doc_no_data : json := JObj [("name", JStr "n")].

Definition doc_bad_data : json := JObj [("data", JInt 5)].

(** Documents whose records have timestamps that do not compare *)
Definition doc_text_times : json :=
  JObj [("data", JArr [record (JStr "noon") "x"; record JNull "y"])].

(** A document with a record that is not an object *)
Definition doc_plain_record : json := JObj [("data", JArr [JStr "line 1"])].

(** Records with numbers for timestamps, one of them absent and two equal *)
Definition doc_times_1 : json :=
  JObj [("data", JArr [record (JInt 7) "p"; JObj [("v", JStr "q")];
                       record (JFloat (FFin 3 (-1))) "r"])].

Definition doc_times_2 : json :=
  JObj [("data", JArr [record (JInt 7) "s"; record (JInt 0) "u"])].

(** The sort key of an entry is the timestamp of its record. *)
Definition key_of_record (e : json * json) : Prop := fst e = timestamp_of (snd e).

(** The lineage that a merge writes for a base that has none *)
Definition new_lineage (now base_file : string) (additional_files : list string)
  : json :=
  JObj [ ("merged_at", JStr now);
         ("base_file", JStr base_file);
         ("additional_files", JArr (map JStr additional_files));
         ("total_files_merged", len_plus_1 (map JStr additional_files)) ].

(** The lineage that a merge writes for a base that carries the lineage
    [existing], whose [additional_files] are [inherited] and whose
    [previous_merges] are [history] *)
Definition extended_lineage (now base_file : string)
    (additional_files : list string) (existing : list (string * json))
    (inherited history : list json) : json :=
  JObj [ ("merged_at", JStr now);
         ("base_file", dict_get "base_file" (JStr base_file) existing);
         ("additional_files", JArr (inherited ++ map JStr additional_files));
         ("total_files_merged", len_plus_1 (inherited ++ map JStr additional_files));
         ("previous_merges",
          JArr (history ++
                [JObj [ ("merged_at", dict_get "merged_at" JNull existing);
                        ("files_in_merge",
                         JArr (dict_get "base_file" JNull existing :: inherited)) ]])) ].

(** A document that is itself the result of a merge *)
Definition doc_merged : json :=
  JObj [("data", JArr [record (JInt 1) "m"]);
        ("merged_sources",
         JObj [("merged_at", JStr "t0"); ("base_file", JStr "x.json");
               ("additional_files", JArr [JStr "y.json"]);
               ("total_files_merged", JInt 2)])].

(** Documents whose [merged_sources] is not what a merge writes *)
Definition doc_text_lineage : json :=
  JObj [("data", JArr []); ("merged_sources", JStr "a.json, b.json")].

Definition doc_text_additional : json :=
  JObj [("data", JArr []);
        ("merged_sources", JObj [("additional_files", JStr "b.json")])].

(** A document with fields of its own *)
Definition doc_with_fields : json :=
  JObj [("device", JStr "bWell-7"); ("data", JArr [record (JInt 1) "w"]);
        ("version", JInt 3)].

(** A lineage whose [previous_merges] is not a list *)
Definition doc_text_history : json :=
  JObj [("data", JArr []);
        ("merged_sources", JObj [("previous_merges", JStr "none")])].



(** The result of one merge, in a store behind the list of the paths of one
    more document *)
Definition store_once_merged : Heap.store :=
  snd (Heap.load doc_merged [Heap.OList [Heap.VStr "c.json"]]).

(** A value of a kind that [<] does not order with numbers: [None], a
    string, a list or a dict. *)
Definition no_order_with_numbers (j : json) : bool :=
  match j with
  | JNull | JStr _ | JArr _ | JObj _ => true
  | _ => false
  end.

(** Records whose times are numbers, then one whose time is a word *)
Definition doc_times_3 : json :=
  JObj [("data", JArr [record (JInt 2) "c"; record (JInt 3) "d";
                       record (JInt 1) "e"])].

Definition doc_times_4 : json :=
  JObj [("data", JArr [record (JStr "late") "f"; record (JInt 0) "g"])].

(* ================================================================== *)
(** ** Properties of the Python fragment *)

Lemma bind_ok {A B : Type} (m : result A) (k : A -> result B) (b : B) :
  bind m k = Ok b -> exists a, m = Ok a /\ k a = Ok b.
Proof.
  destruct m as [a|e]; simpl; intros H; [eauto | discriminate].
Qed.

Lemma mapM_ok_length {A B : Type} (f : A -> result B) (l : list A) (bs : list B) :
  mapM f l = Ok bs -> List.length bs = List.length l.
Proof.
  revert bs; induction l as [|a l IH]; simpl; intros bs H.
  - injection H as <-. reflexivity.
  - apply bind_ok in H as (b & Hb & H).
    apply bind_ok in H as (bs' & Hbs & H).
    injection H as <-. simpl. f_equal. auto.
Qed.

Lemma mapM_ok_Forall2 {A B : Type} (f : A -> result B) (l : list A) (bs : list B) :
  mapM f l = Ok bs <-> Forall2 (fun a b => f a = Ok b) l bs.
Proof.
  revert bs; induction l as [|a l IH]; simpl; intros bs; split; intros H.
  - injection H as <-. constructor.
  - inversion H. reflexivity.
  - apply bind_ok in H as (b & Hb & H).
    apply bind_ok in H as (bs' & Hbs & H).
    injection H as <-. constructor; [assumption | now apply IH].
  - inversion H as [|? b ? bs' Hb Hbs]; subst.
    rewrite Hb. simpl. apply IH in Hbs. rewrite Hbs. reflexivity.
Qed.

Lemma mapM_total {A B : Type} (f : A -> result B) (g : A -> B) (l : list A) :
  Forall (fun a => f a = Ok (g a)) l -> mapM f l = Ok (map g l).
Proof.
  induction 1 as [|a l Ha _ IH]; simpl; [reflexivity|].
  rewrite Ha. simpl. rewrite IH. reflexivity.
Qed.

Lemma mapM_raise {A B : Type} (f : A -> result B) (l1 l2 : list A) (a : A)
    (bs : list B) (e : exn) :
  mapM f l1 = Ok bs -> f a = Raise e -> mapM f (l1 ++ a :: l2) = Raise e.
Proof.
  revert bs; induction l1 as [|x l1 IH]; simpl; intros bs H Ha.
  - rewrite Ha. reflexivity.
  - apply bind_ok in H as (b & Hb & H).
    apply bind_ok in H as (bs' & Hbs & H).
    rewrite Hb. simpl. rewrite (IH _ Hbs Ha). reflexivity.
Qed.

Lemma dict_lookup_set_same (k : string) (v : json) (d : list (string * json)) :
  dict_lookup k (dict_set k v d) = Some v.
Proof.
  induction d as [|[k' v'] d IH]; simpl.
  - rewrite String.eqb_refl. reflexivity.
  - destruct (String.eqb k k') eqn:E; simpl; rewrite E; auto.
Qed.

Lemma dict_lookup_set_other (k k' : string) (v : json) (d : list (string * json)) :
  k <> k' -> dict_lookup k (dict_set k' v d) = dict_lookup k d.
Proof.
  intros Hk. induction d as [|[k0 v0] d IH]; simpl.
  - apply String.eqb_neq in Hk. rewrite Hk. reflexivity.
  - destruct (String.eqb k' k0) eqn:E; simpl.
    + apply String.eqb_eq in E. subst k0.
      apply String.eqb_neq in Hk. rewrite Hk. reflexivity.
    + destruct (String.eqb k k0); auto.
Qed.

Lemma dict_contains_lookup (k : string) (d : list (string * json)) :
  dict_contains k d = match dict_lookup k d with Some _ => true | None => false end.
Proof.
  induction d as [|[k' v'] d IH]; simpl; [reflexivity|].
  destruct (String.eqb k k'); auto.
Qed.

(* ================================================================== *)
(** ** Properties of [list.sort] *)

(** *** Whatever the comparison does *)
Section SortAlways.

Variables K V : Type.
Variable lt : K -> K -> option bool.

Lemma insertion_permutation (pos : nat) (x : K * V) (l : list (K * V)) :
  Permutation (firstn pos l ++ x :: skipn pos l) (x :: l).
Proof.
  symmetry. rewrite <- (firstn_skipn pos l) at 1. apply Permutation_middle.
Qed.

Lemma binarysort_permutation (rest sorted : list (K * V)) :
  Permutation (fst (binarysort lt sorted rest)) (sorted ++ rest).
Proof.
  revert sorted; induction rest as [|x rest IH]; intros sorted; simpl.
  - rewrite app_nil_r. reflexivity.
  - destruct (bsearch lt (fst x) sorted 0 (List.length sorted) (List.length sorted))
      as [pos|]; simpl; [|reflexivity].
    rewrite IH. rewrite insertion_permutation.
    rewrite <- Permutation_middle. reflexivity.
Qed.

(** The sort leaves the items of the list, in some order, in every case. *)
Lemma list_sort_permutation (l : list (K * V)) :
  Permutation (fst (list_sort lt l)) l.
Proof.
  unfold list_sort.
  destruct (Nat.ltb (List.length l) 2); [reflexivity|].
  destruct (count_run lt l) as [[n descending]|]; [|reflexivity].
  rewrite binarysort_permutation.
  transitivity (firstn n l ++ skipn n l); [|now rewrite firstn_skipn].
  apply Permutation_app_tail.
  destruct descending; [symmetry; apply Permutation_rev | reflexivity].
Qed.

(** The first comparison of the sort is between the first two keys: when it
    raises, nothing has moved. *)
Lemma list_sort_first_comparison (a b : K * V) (l : list (K * V)) :
  lt (fst b) (fst a) = None ->
  list_sort lt (a :: b :: l) = (a :: b :: l, false).
Proof.
  intros H. unfold list_sort. simpl. rewrite H. reflexivity.
Qed.

Lemma list_sort_short (l : list (K * V)) :
  (List.length l < 2)%nat -> list_sort lt l = (l, true).
Proof.
  intros H. unfold list_sort.
  apply Nat.ltb_lt in H. rewrite H. reflexivity.
Qed.

End SortAlways.

(** *** On keys that [<] orders *)

(** [P] holds of keys among which [<] always answers, with the answers of a
    strict weak order [ltb]. *)
Section SortOrdered.

Variables K V : Type.
Variable lt : K -> K -> option bool.
Variable ltb : K -> K -> bool.
Variable P : K -> Prop.

Hypothesis lt_answers : forall a b, P a -> P b -> lt a b = Some (ltb a b).
Hypothesis ltb_irrefl : forall a, P a -> ltb a a = false.
Hypothesis ltb_trans : forall a b c, P a -> P b -> P c ->
  ltb a b = true -> ltb b c = true -> ltb a c = true.
Hypothesis ltb_negtrans : forall a b c, P a -> P b -> P c ->
  ltb a b = false -> ltb b c = false -> ltb a c = false.

Local Abbreviation key_le := (@key_le K V ltb).
Local Abbreviation key_eqv := (@key_eqv K V ltb).
Local Abbreviation keyP := (@keyP K V P).

Lemma ltb_asym (a b : K) : P a -> P b -> ltb a b = true -> ltb b a = false.
Proof.
  intros Ha Hb H. destruct (ltb b a) eqn:E; [|reflexivity].
  rewrite <- (ltb_irrefl Ha). symmetry. eapply ltb_trans; eauto.
Qed.

Lemma ltb_le_trans (a b c : K) : P a -> P b -> P c ->
  ltb a b = true -> ltb c b = false -> ltb a c = true.
Proof.
  intros Ha Hb Hc H1 H2. destruct (ltb a c) eqn:E; [reflexivity|].
  rewrite (ltb_negtrans Ha Hc Hb E H2) in H1. discriminate.
Qed.

Lemma insert_middle (x : K * V) (l1 l2 : list (K * V)) :
  Forall (fun y => ltb (fst x) (fst y) = false) l1 ->
  match l2 with [] => True | y :: _ => ltb (fst x) (fst y) = true end ->
  insert ltb x (l1 ++ l2) = l1 ++ x :: l2.
Proof.
  intros H1 H2. induction H1 as [|y l1 Hy _ IH]; simpl.
  - destruct l2 as [|y l2]; simpl; [reflexivity | now rewrite H2].
  - rewrite Hy. now rewrite IH.
Qed.

Lemma sorted_split (l1 l2 : list (K * V)) (x : K * V) :
  Forall keyP (l1 ++ x :: l2) ->
  StronglySorted key_le (l1 ++ x :: l2) ->
  Forall (fun y => key_le y x) l1 /\ Forall (key_le x) l2.
Proof.
  induction l1 as [|y l1 IH]; simpl; intros HP HS.
  - split; [constructor|]. now inversion HS.
  - inversion HS as [|? ? HS' Hy]; subst. inversion HP; subst.
    destruct (IH H2 HS') as [IH1 IH2]. split; [|assumption].
    constructor; [|assumption].
    rewrite Forall_app in Hy. destruct Hy as [_ Hy]. now inversion Hy.
Qed.

Lemma insert_P (x : K * V) (l : list (K * V)) :
  keyP x -> Forall keyP l -> Forall keyP (insert ltb x l).
Proof.
  intros Hx Hl. induction Hl as [|y l Hy Hl IH]; simpl.
  - constructor; auto.
  - destruct (ltb (fst x) (fst y)); repeat constructor; auto.
Qed.

Lemma insert_In (x z : K * V) (l : list (K * V)) :
  In z (insert ltb x l) -> z = x \/ In z l.
Proof.
  induction l as [|y l IH]; simpl.
  - intros [<-|[]]. now left.
  - destruct (ltb (fst x) (fst y)); simpl.
    + intros [<-|[<-|H]]; auto.
    + intros [<-|H]; auto. destruct (IH H); auto.
Qed.

Lemma insert_sorted (x : K * V) (l : list (K * V)) :
  keyP x -> Forall keyP l ->
  StronglySorted key_le l -> StronglySorted key_le (insert ltb x l).
Proof.
  intros Hx HP HS. induction HS as [|y l HS IH Hy]; simpl.
  - repeat constructor.
  - inversion HP as [|? ? Py Pl]; subst.
    destruct (ltb (fst x) (fst y)) eqn:E.
    + constructor; [now constructor|].
      constructor.
      * unfold key_le. now apply ltb_asym.
      * rewrite Forall_forall in *. intros z Hz. unfold key_le.
        assert (Pz : P (fst z)) by (apply Pl; assumption).
        apply (ltb_asym Hx Pz). apply (ltb_le_trans Hx Py Pz E).
        apply Hy. assumption.
    + constructor; [auto|].
      rewrite Forall_forall in *. intros z Hz.
      destruct (insert_In _ _ _ Hz) as [->|Hz']; [exact E | auto].
Qed.

Lemma fold_insert_P (l acc : list (K * V)) :
  Forall keyP l -> Forall keyP acc ->
  Forall keyP (fold_left (fun acc x => insert ltb x acc) l acc).
Proof.
  intros Hl. revert acc. induction Hl as [|x l Hx Hl IH]; simpl; intros acc Ha.
  - assumption.
  - apply IH. now apply insert_P.
Qed.

Lemma fold_insert_sorted (l acc : list (K * V)) :
  Forall keyP l -> Forall keyP acc -> StronglySorted key_le acc ->
  StronglySorted key_le (fold_left (fun acc x => insert ltb x acc) l acc).
Proof.
  intros Hl. revert acc. induction Hl as [|x l Hx Hl IH]; simpl; intros acc Ha Hs.
  - assumption.
  - apply IH; [now apply insert_P | now apply insert_sorted].
Qed.

Lemma insert_permutation (x : K * V) (l : list (K * V)) :
  Permutation (insert ltb x l) (x :: l).
Proof.
  induction l as [|y l IH]; simpl; [reflexivity|].
  destruct (ltb (fst x) (fst y)); [reflexivity|].
  rewrite IH. apply perm_swap.
Qed.

(** Inserting [x] into a sorted list puts it after the items of its rank. *)
Lemma insert_stable (t : K) (x : K * V) (l : list (K * V)) :
  P t -> keyP x -> Forall keyP l -> StronglySorted key_le l ->
  filter (key_eqv t) (insert ltb x l) = filter (key_eqv t) l ++ filter (key_eqv t) [x].
Proof.
  intros Ht Hx HP HS. induction HS as [|y l HS IH Hy].
  - simpl. reflexivity.
  - inversion HP as [|? ? Py Pl]; subst. simpl insert.
    destruct (ltb (fst x) (fst y)) eqn:E.
    + destruct (key_eqv t x) eqn:Ex.
      * assert (Hnone : forall z, In z (y :: l) -> key_eqv t z = false).
        { intros z Hz. assert (Pz : keyP z) by (rewrite Forall_forall in HP; auto).
          assert (Hxz : ltb (fst x) (fst z) = true).
          { destruct Hz as [<-|Hz]; [exact E|].
            apply (ltb_le_trans Hx Py Pz E).
            rewrite Forall_forall in Hy. apply Hy. assumption. }
          unfold key_eqv in *. apply andb_true_iff in Ex as [E1 E2].
          apply negb_true_iff in E1, E2.
          destruct (ltb t (fst z)) eqn:Etz; [reflexivity|].
          rewrite (ltb_negtrans Hx Ht Pz E2 Etz) in Hxz. discriminate. }
        assert (Hnil : filter (key_eqv t) (y :: l) = []).
        { clear -Hnone. induction (y :: l) as [|z l' IH']; simpl; [reflexivity|].
          rewrite (Hnone z (or_introl eq_refl)). apply IH'.
          intros z' Hz'. apply Hnone. now right. }
        change (filter (key_eqv t) (x :: y :: l))
          with (if key_eqv t x then x :: filter (key_eqv t) (y :: l)
                else filter (key_eqv t) (y :: l)).
        rewrite Ex, Hnil. simpl. rewrite Ex. reflexivity.
      * change (filter (key_eqv t) (x :: y :: l))
          with (if key_eqv t x then x :: filter (key_eqv t) (y :: l)
                else filter (key_eqv t) (y :: l)).
        rewrite Ex. simpl. rewrite Ex. now rewrite app_nil_r.
    + simpl. rewrite (IH Pl). simpl.
      destruct (key_eqv t y); reflexivity.
Qed.

Lemma fold_insert_stable (t : K) (l acc : list (K * V)) :
  P t -> Forall keyP l -> Forall keyP acc -> StronglySorted key_le acc ->
  filter (key_eqv t) (fold_left (fun acc x => insert ltb x acc) l acc)
  = filter (key_eqv t) acc ++ filter (key_eqv t) l.
Proof.
  intros Ht Hl. revert acc. induction Hl as [|x l Hx Hl IH]; simpl; intros acc Ha Hs.
  - now rewrite app_nil_r.
  - rewrite IH; [|now apply insert_P | now apply insert_sorted].
    rewrite insert_stable by assumption. simpl.
    rewrite <- app_assoc. f_equal.
    destruct (key_eqv t x); reflexivity.
Qed.

(** The reference sort returns the items in order, each rank in the order
    it came in. *)
Lemma stable_sort_sorted (l : list (K * V)) :
  Forall keyP l -> StronglySorted key_le (stable_sort ltb l).
Proof.
  intros Hl. apply fold_insert_sorted; auto; constructor.
Qed.

Lemma stable_sort_stable (t : K) (l : list (K * V)) :
  P t -> Forall keyP l ->
  filter (key_eqv t) (stable_sort ltb l) = filter (key_eqv t) l.
Proof.
  intros Ht Hl. unfold stable_sort.
  rewrite fold_insert_stable; auto; constructor.
Qed.

Lemma split_at (l1 l2 : list (K * V)) (x : K * V) :
  firstn (List.length l1) (l1 ++ x :: l2) = l1 /\
  skipn (List.length l1) (l1 ++ x :: l2) = x :: l2 /\
  firstn (S (List.length l1)) (l1 ++ x :: l2) = l1 ++ [x] /\
  skipn (S (List.length l1)) (l1 ++ x :: l2) = l2.
Proof.
  induction l1 as [|y l1 (IH1 & IH2 & IH3 & IH4)].
  - repeat split; reflexivity.
  - cbn [List.length app].
    rewrite !firstn_cons, !skipn_cons, IH1, IH2, IH3, IH4. auto.
Qed.

(** The binary search finds the place after the items that are not greater
    than the pivot. *)
Lemma bsearch_spec (pivot : K) (a : list (K * V)) :
  P pivot -> Forall keyP a -> StronglySorted key_le a ->
  forall (fuel l r : nat),
    (l <= r <= List.length a)%nat -> (r - l <= fuel)%nat ->
    Forall (fun y => ltb pivot (fst y) = false) (firstn l a) ->
    Forall (fun y => ltb pivot (fst y) = true) (skipn r a) ->
    exists pos,
      bsearch lt pivot a l r fuel = Some pos /\
      Forall (fun y => ltb pivot (fst y) = false) (firstn pos a) /\
      Forall (fun y => ltb pivot (fst y) = true) (skipn pos a).
Proof.
  intros Hp HP HS. induction fuel as [|fuel IH]; intros l r Hlr Hfuel Hl Hr; simpl.
  - assert (l = r) by lia. subst r. eauto.
  - destruct (Nat.ltb l r) eqn:E.
    2:{ apply Nat.ltb_ge in E. assert (l = r) by lia. subst r. eauto. }
    apply Nat.ltb_lt in E.
    assert (Hdiv : (Nat.div2 (r - l) < r - l)%nat) by (apply Nat.lt_div2; lia).
    remember (Nat.div2 (r - l)) as half eqn:Hhalf. clear Hhalf.
    remember (l + half)%nat as p eqn:Hpdef.
    assert (Hpr : (p < List.length a)%nat) by lia.
    destruct (nth_error a p) as [x|] eqn:Ex;
      [|apply nth_error_None in Ex; lia].
    destruct (nth_error_split a p Ex) as (l1 & l2 & Ha & Hlen).
    destruct (split_at l1 l2 x) as (S1 & S2 & S3 & S4).
    rewrite Hlen, <- Ha in S1, S2, S3, S4.
    assert (Px : P (fst x)).
    { rewrite Forall_forall in HP. apply HP. rewrite Ha.
      apply in_or_app. right. now left. }
    rewrite Ha in HS, HP.
    destruct (sorted_split _ _ _ HP HS) as [Hbefore Hafter].
    rewrite Forall_app in HP. destruct HP as [HP1 HP2].
    inversion HP2 as [|? ? _ HP3]; subst x0 l0.
    rewrite <- Ha in HS.
    rewrite (lt_answers Hp Px).
    destruct (ltb pivot (fst x)) eqn:Ep.
    + apply IH; [lia | lia | assumption |].
      rewrite S2. constructor; [assumption|].
      rewrite Forall_forall in *. intros z Hz.
      apply (ltb_le_trans Hp Px (HP3 z Hz) Ep). apply Hafter. assumption.
    + apply IH; [lia | lia | | assumption].
      rewrite S3. apply Forall_app. split; [|now constructor].
      rewrite Forall_forall in *. intros z Hz.
      apply (ltb_negtrans Hp Px (HP1 z Hz) Ep). apply Hbefore. assumption.
Qed.

Lemma binarysort_spec (rest sorted : list (K * V)) :
  Forall keyP rest -> Forall keyP sorted -> StronglySorted key_le sorted ->
  binarysort lt sorted rest
  = (fold_left (fun acc x => insert ltb x acc) rest sorted, true).
Proof.
  intros Hrest. revert sorted.
  induction Hrest as [|x rest Hx Hrest IH]; intros sorted HP HS; simpl.
  - reflexivity.
  - destruct (bsearch_spec Hx HP HS (fuel := List.length sorted)
                (l := 0%nat) (r := List.length sorted)) as (pos & -> & H1 & H2).
    + lia.
    + lia.
    + constructor.
    + rewrite skipn_all. constructor.
    + assert (Hins : firstn pos sorted ++ x :: skipn pos sorted = insert ltb x sorted).
      { rewrite <- (firstn_skipn pos sorted) at 3.
        symmetry. apply insert_middle; [assumption|].
        destruct (skipn pos sorted); [exact I | now inversion H2]. }
      rewrite Hins. apply IH; [now apply insert_P | now apply insert_sorted].
Qed.

Lemma run_ascending_spec (l : list (K * V)) :
  Forall keyP l ->
  forall (prev : K) (n : nat) (acc : list (K * V)),
    P prev -> Forall keyP acc ->
    Forall (fun y => ltb prev (fst y) = false) acc ->
    exists k,
      run_ascending lt prev l n = Some (n + k)%nat /\
      (k <= List.length l)%nat /\
      fold_left (fun acc x => insert ltb x acc) (firstn k l) acc = acc ++ firstn k l.
Proof.
  induction 1 as [|x l Hx Hl IH]; intros prev n acc Hprev Hacc Hinv; simpl.
  - exists 0%nat. rewrite Nat.add_0_r, app_nil_r. auto.
  - rewrite (lt_answers Hx Hprev).
    destruct (ltb (fst x) prev) eqn:E.
    + exists 0%nat. rewrite Nat.add_0_r, app_nil_r. simpl. auto with arith.
    + assert (Hxacc : Forall (fun y => ltb (fst x) (fst y) = false) acc).
      { rewrite Forall_forall in *. intros y Hy.
        apply (ltb_negtrans Hx Hprev (Hacc y Hy) E). apply Hinv. assumption. }
      destruct (IH (fst x) (S n) (acc ++ [x])) as (k & Hk & Hle & Hfold).
      * assumption.
      * apply Forall_app. split; [assumption | now constructor].
      * apply Forall_app. split; [assumption|].
        constructor; [now apply ltb_irrefl | constructor].
      * exists (S k). rewrite Hk. split; [f_equal; lia|]. split; [simpl; lia|].
        simpl. replace (insert ltb x acc) with (acc ++ [x]).
        -- rewrite Hfold. now rewrite <- app_assoc.
        -- symmetry. rewrite <- (app_nil_r acc) at 1.
           apply insert_middle; [assumption | exact I].
Qed.

Lemma run_descending_spec (l : list (K * V)) :
  Forall keyP l ->
  forall (h : K * V) (n : nat) (acc : list (K * V)),
    keyP h ->
    exists k,
      run_descending lt (fst h) l n = Some (n + k)%nat /\
      (k <= List.length l)%nat /\
      fold_left (fun acc x => insert ltb x acc) (firstn k l) (h :: acc)
      = rev (firstn k l) ++ h :: acc.
Proof.
  induction 1 as [|x l Hx Hl IH]; intros h n acc Hh; simpl.
  - exists 0%nat. rewrite Nat.add_0_r. auto.
  - rewrite (lt_answers Hx Hh).
    destruct (ltb (fst x) (fst h)) eqn:E.
    + destruct (IH x (S n) (h :: acc) Hx) as (k & Hk & Hle & Hfold).
      exists (S k). rewrite Hk. split; [f_equal; lia|]. split; [simpl; lia|].
      simpl. rewrite E. rewrite Hfold. now rewrite <- app_assoc.
    + exists 0%nat. rewrite Nat.add_0_r. simpl. auto with arith.
Qed.

Lemma count_run_spec (a b : K * V) (rest : list (K * V)) :
  Forall keyP (a :: b :: rest) ->
  exists n descending,
    count_run lt (a :: b :: rest) = Some (n, descending) /\
    (if descending : bool then rev (firstn n (a :: b :: rest))
     else firstn n (a :: b :: rest))
    = stable_sort ltb (firstn n (a :: b :: rest)).
Proof.
  intros HP. inversion HP as [|? ? Pa HP']; subst.
  inversion HP' as [|? ? Pb Prest]; subst.
  unfold count_run. rewrite (lt_answers Pb Pa).
  destruct (ltb (fst b) (fst a)) eqn:E.
  - destruct (run_descending_spec Prest (h := b) 2 [a] Pb) as (k & -> & _ & Hfold).
    exists (2 + k)%nat, true. split; [reflexivity|].
    unfold stable_sort. simpl. rewrite E, Hfold.
    now rewrite <- !app_assoc.
  - destruct (run_ascending_spec Prest (prev := fst b) 2 (acc := [a; b]))
      as (k & -> & _ & Hfold).
    + assumption.
    + now repeat constructor.
    + repeat constructor; [assumption | now apply ltb_irrefl].
    + exists (2 + k)%nat, false. split; [reflexivity|].
      unfold stable_sort. simpl. rewrite E, Hfold. reflexivity.
Qed.

(** On keys that [<] orders the sort runs to its end and returns what the
    reference sort returns. *)
Lemma list_sort_spec (l : list (K * V)) :
  Forall keyP l -> list_sort lt l = (stable_sort ltb l, true).
Proof.
  intros HP. destruct l as [|a [|b rest]]; [reflexivity | reflexivity |].
  unfold list_sort.
  change (Nat.ltb (List.length (a :: b :: rest)) 2) with false. cbv iota.
  destruct (count_run_spec HP) as (n & d & -> & Hrun).
  rewrite Hrun.
  assert (HP12 : Forall keyP (firstn n (a :: b :: rest)) /\
                 Forall keyP (skipn n (a :: b :: rest))).
  { apply Forall_app. now rewrite firstn_skipn. }
  destruct HP12 as [HP1 HP2].
  rewrite binarysort_spec.
  - unfold stable_sort. rewrite <- fold_left_app, firstn_skipn. reflexivity.
  - assumption.
  - apply fold_insert_P; [assumption | constructor].
  - now apply stable_sort_sorted.
Qed.

End SortOrdered.

(* ================================================================== *)
(** ** The order of numbers *)

Lemma Qltb_lt (p q : Q) : Qltb p q = true <-> (p < q)%Q.
Proof.
  unfold Qltb. rewrite Qlt_alt. destruct (p ?= q)%Q; split; congruence.
Qed.

Lemma Qltb_ge (p q : Q) : Qltb p q = false <-> (q <= p)%Q.
Proof.
  split; intros H.
  - apply Qnot_lt_le. intros Hlt. apply Qltb_lt in Hlt. congruence.
  - destruct (Qltb p q) eqn:E; [|reflexivity].
    apply Qltb_lt in E. exfalso. exact (Qle_not_lt _ _ H E).
Qed.

Lemma xq_ltb_irrefl (a : xq) : xq_ltb a a = false.
Proof.
  destruct a; simpl; try reflexivity. apply Qltb_ge. apply Qle_refl.
Qed.

Lemma xq_ltb_trans (a b c : xq) :
  xq_ltb a b = true -> xq_ltb b c = true -> xq_ltb a c = true.
Proof.
  destruct a, b, c; simpl; try congruence.
  rewrite !Qltb_lt. apply Qlt_trans.
Qed.

Lemma xq_ltb_negtrans (a b c : xq) :
  xq_ltb a b = false -> xq_ltb b c = false -> xq_ltb a c = false.
Proof.
  destruct a, b, c; simpl; try congruence.
  rewrite !Qltb_ge. intros H1 H2. eapply Qle_trans; eauto.
Qed.

Lemma is_number_ranked (j : json) : is_number j = true -> ranked j.
Proof.
  destruct j as [| | |[]| | |]; simpl; try discriminate; intros _;
    unfold ranked; simpl; eauto.
  destruct negative; eauto.
Qed.

(** Among ranked values [<] answers with the order of numbers. *)
Lemma py_lt_ranked (a b : json) :
  ranked a -> ranked b -> py_lt a b = Some (num_ltb a b).
Proof.
  intros [x Hx] [y Hy]. unfold num_ltb. rewrite Hx, Hy.
  destruct a; simpl in Hx; try discriminate; simpl; rewrite Hy;
    try (injection Hx as <-; reflexivity).
  destruct (float_val f); [injection Hx as <-; reflexivity | discriminate].
Qed.

Lemma num_ltb_irrefl (a : json) : ranked a -> num_ltb a a = false.
Proof.
  intros [x Hx]. unfold num_ltb. rewrite Hx. apply xq_ltb_irrefl.
Qed.

Lemma num_ltb_trans (a b c : json) : ranked a -> ranked b -> ranked c ->
  num_ltb a b = true -> num_ltb b c = true -> num_ltb a c = true.
Proof.
  intros [x Hx] [y Hy] [z Hz]. unfold num_ltb. rewrite Hx, Hy, Hz.
  apply xq_ltb_trans.
Qed.

Lemma num_ltb_negtrans (a b c : json) : ranked a -> ranked b -> ranked c ->
  num_ltb a b = false -> num_ltb b c = false -> num_ltb a c = false.
Proof.
  intros [x Hx] [y Hy] [z Hz]. unfold num_ltb. rewrite Hx, Hy, Hz.
  apply xq_ltb_negtrans.
Qed.

(* ================================================================== *)
(** ** Properties of the program *)

(** *** Loading and validation *)

Lemma load_all (fs : filesystem) (file_paths : list string) (docs : list json) :
  holds fs file_paths docs ->
  mapM (fun filepath =>
          log_data <- load_json_file fs filepath ;; Ok (filepath, log_data))
       file_paths
  = Ok (combine file_paths docs).
Proof.
  unfold holds. revert docs.
  induction file_paths as [|p ps IH]; intros [|d ds] H; try discriminate.
  - reflexivity.
  - simpl in H. injection H as Hp Hps.
    assert (Hl : load_json_file fs p = Ok d)
      by (unfold load_json_file; now rewrite Hp).
    cbn [mapM]. rewrite Hl. cbn [bind]. rewrite (IH _ Hps). reflexivity.
Qed.

Lemma validate_valid (p : string) (doc : json) :
  valid_document doc = true -> validate (p, doc) = Ok tt.
Proof.
  unfold valid_document, validate, field.
  destruct doc as [| | | | | |d]; try discriminate.
  simpl. rewrite dict_contains_lookup.
  destruct (dict_lookup "data" d) as [[]|]; try discriminate. reflexivity.
Qed.

Lemma validate_ok (p : string) (doc : json) (u : unit) :
  validate (p, doc) = Ok u -> valid_document doc = true.
Proof.
  unfold valid_document, validate, field.
  destruct doc as [| | | |s|xs|d]; cbn [py_contains bind];
    try (intros H; discriminate H).
  - destruct (str_contains "data" s); cbn; intros H; discriminate H.
  - destruct (existsb (py_eq (JStr "data")) xs); cbn; intros H; discriminate H.
  - rewrite dict_contains_lookup. unfold py_getitem.
    destruct (dict_lookup "data" d) as [[]|]; cbn; congruence.
Qed.

Lemma validate_missing (p : string) (d : list (string * json)) :
  dict_lookup "data" d = None ->
  validate (p, JObj d) = Raise (MissingDataField p).
Proof.
  intros H. unfold validate. simpl. rewrite dict_contains_lookup, H. reflexivity.
Qed.

Lemma validate_not_list (p : string) (d : list (string * json)) (v : json) :
  dict_lookup "data" d = Some v -> (forall xs, v <> JArr xs) ->
  validate (p, JObj d) = Raise (InvalidDataType p).
Proof.
  intros H Hv. unfold validate. simpl. rewrite dict_contains_lookup, H. simpl.
  destruct v; try reflexivity. now destruct (Hv xs).
Qed.

Lemma validate_all (entries : list (string * json)) :
  Forall (fun entry => valid_document (snd entry) = true) entries ->
  mapM validate entries = Ok (map (fun _ => tt) entries).
Proof.
  intros H. apply mapM_total.
  eapply Forall_impl; [|exact H]. intros [p doc] Hd. now apply validate_valid.
Qed.

Lemma validate_all_ok (entries : list (string * json)) (us : list unit) :
  mapM validate entries = Ok us ->
  Forall (fun entry => valid_document (snd entry) = true) entries.
Proof.
  intros H. apply mapM_ok_Forall2 in H.
  induction H as [|[p doc] u l us' Hu _ IH]; constructor; auto.
  simpl. eapply validate_ok; eauto.
Qed.

Lemma data_of_valid (doc : json) :
  valid_document doc = true -> data_of doc = Ok (records_of doc).
Proof.
  unfold valid_document, data_of, records_of, field.
  destruct doc as [| | | | | |d]; try discriminate. simpl.
  destruct (dict_lookup "data" d) as [[]|]; try discriminate. reflexivity.
Qed.

(** *** The sort of the records *)

Lemma get_timestamp_object (record : json) :
  is_object record = true -> get_timestamp record = Ok (timestamp_of record).
Proof.
  destruct record; try discriminate. reflexivity.
Qed.

Lemma get_timestamp_other (record : json) :
  is_object record = false -> get_timestamp record = Raise AttributeError.
Proof.
  destruct record; try discriminate; reflexivity.
Qed.

Lemma combine_keys (records : list json) :
  combine (map timestamp_of records) records = keyed records.
Proof.
  induction records as [|r rs IH]; simpl; [reflexivity | now rewrite IH].
Qed.

Lemma keyed_records (records : list json) : map snd (keyed records) = records.
Proof.
  unfold keyed. rewrite map_map. simpl. apply map_id.
Qed.

(** When every record is an object the sort returns, with the records as
    [list.sort] left them. *)
Lemma sort_records_objects (records : list json) :
  forallb is_object records = true ->
  sort_records records
  = Ok (map snd (fst (list_sort py_lt (keyed records))),
        snd (list_sort py_lt (keyed records))).
Proof.
  intros H. unfold sort_records.
  rewrite (mapM_total get_timestamp timestamp_of).
  - simpl. rewrite combine_keys.
    destruct (list_sort py_lt (keyed records)). reflexivity.
  - rewrite forallb_forall in H. apply Forall_forall.
    intros r Hr. apply get_timestamp_object. auto.
Qed.

(** A record that is not an object stops the sort with an
    [AttributeError]. *)
Lemma sort_records_other (records : list json) :
  forallb is_object records = false ->
  sort_records records = Raise AttributeError.
Proof.
  intros H. unfold sort_records.
  assert (Hm : mapM get_timestamp records = Raise AttributeError).
  { induction records as [|r rs IH]; simpl in *; [discriminate|].
    destruct (is_object r) eqn:E.
    - rewrite (get_timestamp_object _ E). simpl. rewrite (IH H). reflexivity.
    - rewrite (get_timestamp_other _ E). reflexivity. }
  rewrite Hm. reflexivity.
Qed.

Lemma sort_records_permutation (records sorted : list json) (finished : bool) :
  sort_records records = Ok (sorted, finished) -> Permutation sorted records.
Proof.
  destruct (forallb is_object records) eqn:E.
  - rewrite (sort_records_objects _ E). intros H. injection H as <- _.
    rewrite <- (keyed_records records) at 2.
    apply Permutation_map. apply list_sort_permutation.
  - rewrite (sort_records_other _ E). discriminate.
Qed.

(** *** The merge of valid documents *)

(** Once the documents are loaded and valid, the merge is the sort followed
    by the lineage, put into a copy of the base. *)
Lemma merge_loaded_valid (now p : string) (base : list (string * json))
    (rest : list (string * json)) :
  valid_document (JObj base) = true ->
  Forall (fun entry => valid_document (snd entry) = true) rest ->
  merge_loaded now ((p, JObj base) :: rest)
  = (sorted <- sort_records (all_records (JObj base :: map snd rest)) ;;
     merged_sources <- create_merged_metadata now p (map fst rest) (JObj base) ;;
     Ok (JObj (dict_set "merged_sources" merged_sources
                 (dict_set "data" (JArr (fst sorted)) base)))).
Proof.
  intros Hb Hrest. unfold merge_loaded.
  rewrite validate_all by (constructor; assumption).
  cbn [bind]. rewrite (data_of_valid _ Hb). cbn [bind].
  rewrite (mapM_total (fun entry : string * json => data_of (snd entry))
             (fun entry => records_of (snd entry))).
  - cbn [bind]. unfold all_records. simpl flat_map.
    rewrite flat_map_concat_map, map_map. reflexivity.
  - eapply Forall_impl; [|exact Hrest]. intros e He. now apply data_of_valid.
Qed.

Lemma merge_loaded_ok (now : string) (entries : list (string * json)) (r : json) :
  merge_loaded now entries = Ok r ->
  Forall (fun entry => valid_document (snd entry) = true) entries.
Proof.
  unfold merge_loaded. destruct entries as [|[p base] rest]; [discriminate|].
  intros H. apply bind_ok in H as (us & Hus & _).
  eapply validate_all_ok; eauto.
Qed.

Lemma combine_split_map (A B : Type) (xs : list A) (ys : list B) :
  List.length xs = List.length ys ->
  map fst (combine xs ys) = xs /\ map snd (combine xs ys) = ys.
Proof.
  revert ys; induction xs as [|x xs IH]; intros [|y ys] H; try discriminate.
  - auto.
  - simpl in H. injection H as H. destruct (IH _ H) as [H1 H2].
    simpl. now rewrite H1, H2.
Qed.

Lemma holds_length (fs : filesystem) (file_paths : list string) (docs : list json) :
  holds fs file_paths docs -> List.length file_paths = List.length docs.
Proof.
  unfold holds. intros H.
  rewrite <- (length_map fs file_paths), H. apply length_map.
Qed.

(** The merge of two or more valid documents: the sort of their records,
    then the lineage, put into a copy of the base. *)
Lemma merge_log_files_valid (now : string) (fs : filesystem)
    (file_paths : list string) (docs : list json) :
  holds fs file_paths docs ->
  (2 <= List.length file_paths)%nat ->
  Forall (fun doc => valid_document doc = true) docs ->
  exists p ps base others,
    file_paths = p :: ps /\ docs = JObj base :: others /\
    merge_log_files now fs file_paths
    = (sorted <- sort_records (all_records docs) ;;
       merged_sources <- create_merged_metadata now p ps (JObj base) ;;
       Ok (JObj (dict_set "merged_sources" merged_sources
                   (dict_set "data" (JArr (fst sorted)) base)))).
Proof.
  intros Hh Hlen Hv. pose proof (holds_length Hh) as Hl.
  destruct file_paths as [|p ps]; [simpl in Hlen; lia|].
  destruct docs as [|doc others]; [discriminate|].
  inversion Hv as [|? ? Hdoc Hothers]; subst.
  destruct doc as [| | | | | |base]; try discriminate.
  exists p, ps, base, others. split; [reflexivity|]. split; [reflexivity|].
  unfold merge_log_files.
  assert (E : Nat.ltb (List.length (p :: ps)) 2 = false) by now apply Nat.ltb_ge.
  rewrite E, (load_all Hh). cbn [bind combine].
  simpl in Hl. injection Hl as Hl.
  destruct (combine_split_map ps others Hl) as [H1 H2].
  rewrite merge_loaded_valid; [now rewrite H1, H2 | assumption |].
  apply Forall_forall. intros e He. rewrite Forall_forall in Hothers.
  apply Hothers. rewrite <- H2. now apply in_map.
Qed.

(** A merge that returns was given two or more valid documents. *)
Lemma merge_log_files_ok (now : string) (fs : filesystem)
    (file_paths : list string) (docs : list json) (r : json) :
  holds fs file_paths docs ->
  merge_log_files now fs file_paths = Ok r ->
  (2 <= List.length file_paths)%nat /\
  Forall (fun doc => valid_document doc = true) docs.
Proof.
  intros Hh H. pose proof (holds_length Hh) as Hl. unfold merge_log_files in H.
  destruct (Nat.ltb (List.length file_paths) 2) eqn:E; [discriminate|].
  apply Nat.ltb_ge in E. split; [assumption|].
  rewrite (load_all Hh) in H. cbn [bind] in H.
  apply merge_loaded_ok in H.
  destruct (combine_split_map file_paths docs Hl) as [_ H2].
  rewrite <- H2. apply Forall_forall. intros d Hd.
  apply in_map_iff in Hd as (e & <- & He).
  rewrite Forall_forall in H. auto.
Qed.

Lemma field_data_merged (base : list (string * json)) (records : list json)
    (merged_sources : json) :
  field "data" (JObj (dict_set "merged_sources" merged_sources
                        (dict_set "data" (JArr records) base)))
  = Some (JArr records).
Proof.
  unfold field. rewrite dict_lookup_set_other by discriminate.
  apply dict_lookup_set_same.
Qed.

Lemma lineage_merged (base : list (string * json)) (records : list json)
    (merged_sources : json) :
  lineage (JObj (dict_set "merged_sources" merged_sources
                   (dict_set "data" (JArr records) base)))
  = Some merged_sources.
Proof.
  unfold lineage, field. apply dict_lookup_set_same.
Qed.

(* ================================================================== *)
(** ** The claims *)

(** C3.  For every valid input set of two or more documents on which the
    merge succeeds, the [data] of the result has as many records as the
    [data] of all the inputs together. *)
Theorem merged_data_length (now : string) (fs : filesystem)
    (file_paths : list string) (docs : list json) (r : json) :
  holds fs file_paths docs ->
  (2 <= List.length file_paths)%nat ->
  Forall (fun doc => valid_document doc = true) docs ->
  merge_log_files now fs file_paths = Ok r ->
  exists records,
    field "data" r = Some (JArr records) /\
    List.length records
    = list_sum (map (fun doc => List.length (records_of doc)) docs).
Proof.
  intros Hh Hlen Hv H.
  destruct (merge_log_files_valid now Hh Hlen Hv)
    as (p & ps & base & others & -> & -> & E).
  rewrite E in H.
  apply bind_ok in H as ([sorted finished] & Hs & H).
  apply bind_ok in H as (ms & _ & H). injection H as <-.
  exists sorted. split; [apply field_data_merged|].
  rewrite (Permutation_length (sort_records_permutation _ Hs)).
  unfold all_records. apply length_flat_map.
Qed.

Lemma merged_data_length_witness :
  exists records,
    field "data"
      (JObj [("data", JArr [record (JInt 2) "b"; record (JInt 5) "a"]);
             ("merged_sources",
              JObj [("merged_at", JStr "2024-01-01T00:00:00");
                    ("base_file", JStr "a.json");
                    ("additional_files", JArr [JStr "b.json"]);
                    ("total_files_merged", JInt 2)])])
    = Some (JArr records) /\
    List.length records = 2%nat.
Proof.
  apply (@merged_data_length "2024-01-01T00:00:00" fs_ab
           ["a.json"; "b.json"] [doc_a; doc_b]).
  - reflexivity.
  - simpl. lia.
  - repeat constructor.
  - reflexivity.
Defined.

(* ================================================================== *)
(** ** Further properties of the merge *)

Lemma combine_fst_snd (A B : Type) (l : list (A * B)) :
  combine (map fst l) (map snd l) = l.
Proof.
  induction l as [|[a b] l IH]; simpl; [reflexivity | now rewrite IH].
Qed.

Lemma merge_loaded_invalid (now : string) (entries : list (string * json))
    (e : exn) :
  mapM validate entries = Raise e -> merge_loaded now entries = Raise e.
Proof.
  unfold merge_loaded. destruct entries as [|[p base] rest]; [discriminate|].
  intros ->. reflexivity.
Qed.

(** *** Errors *)

(** X1.  The documents are validated in input order and the first one at
    fault decides the error: when the documents before it are valid and it
    has no [data], the merge raises the [ValueError] that names it as missing
    the field; when its [data] is not a list, the one that names it as having
    a [data] that must be a list.  The documents after it are not looked at. *)
Theorem first_invalid_document_decides (now : string) (fs : filesystem)
    (before after : list (string * json)) (p : string)
    (d : list (string * json)) :
  let entries := before ++ (p, JObj d) :: after in
  holds fs (map fst entries) (map snd entries) ->
  (2 <= List.length entries)%nat ->
  Forall (fun entry => valid_document (snd entry) = true) before ->
  (dict_lookup "data" d = None ->
   merge_log_files now fs (map fst entries) = Raise (MissingDataField p)) /\
  (forall v, dict_lookup "data" d = Some v -> (forall xs, v <> JArr xs) ->
   merge_log_files now fs (map fst entries) = Raise (InvalidDataType p)).
Proof.
  intros entries Hh Hlen Hb.
  assert (Hmerge : forall e, validate (p, JObj d) = Raise e ->
                             merge_log_files now fs (map fst entries) = Raise e).
  { intros e He. unfold merge_log_files.
    assert (E : Nat.ltb (List.length (map fst entries)) 2 = false)
      by (apply Nat.ltb_ge; now rewrite length_map).
    rewrite E, (load_all Hh), combine_fst_snd. cbn [bind].
    apply merge_loaded_invalid. unfold entries.
    eapply mapM_raise; [apply (validate_all Hb) | exact He]. }
  split.
  - intros H. apply Hmerge. now apply validate_missing.
  - intros v H Hv. apply Hmerge. eapply validate_not_list; eauto.
Qed.

Lemma first_invalid_document_decides_witness :
  merge_log_files "t" (files [("a.json", doc_a); ("c.json", doc_bad_data);
                              ("d.json", doc_no_data)])
    ["a.json"; "c.json"; "d.json"]
  = Raise (InvalidDataType "c.json").
Proof.
  refine (proj2 (@first_invalid_document_decides "t"
                   (files [("a.json", doc_a); ("c.json", doc_bad_data);
                           ("d.json", doc_no_data)])
                   [("a.json", doc_a)] [("d.json", doc_no_data)] "c.json"
                   [("data", JInt 5)] _ _ _) (JInt 5) _ _).
  - reflexivity.
  - simpl. lia.
  - repeat constructor.
  - reflexivity.
  - intros xs H. discriminate H.
Defined.

(** X2.  Every file is loaded before any document is validated: when the
    files before [p] can be read, whatever they hold, and [p] cannot, the
    merge raises the loader's error for [p] ([FileNotFoundError] for a
    missing file, [ValueError] for invalid JSON, each naming the path). *)
Theorem load_errors_come_first (now : string) (fs : filesystem)
    (before after : list string) (p : string) :
  (2 <= List.length (before ++ p :: after))%nat ->
  Forall (fun q => exists j, fs q = Content j) before ->
  (fs p = NoFile ->
   merge_log_files now fs (before ++ p :: after)
   = Raise (FileNotFoundError ("File not found: " ++ p))) /\
  (forall detail, fs p = BadJson detail ->
   merge_log_files now fs (before ++ p :: after)
   = Raise (ValueError ("Invalid JSON in file " ++ p ++ ": " ++ detail))).
Proof.
  intros Hlen Hb.
  set (loader := fun filepath : string =>
                   log_data <- load_json_file fs filepath ;; Ok (filepath, log_data)).
  assert (Hbefore : exists entries, mapM loader before = Ok entries).
  { clear Hlen. induction before as [|q qs IH].
    - now exists [].
    - inversion Hb as [|? ? [j Hq] Hqs]; subst.
      destruct (IH Hqs) as [entries Hentries].
      exists ((q, j) :: entries). cbn [mapM]. unfold loader at 1.
      unfold load_json_file. rewrite Hq. cbn [bind]. now rewrite Hentries. }
  destruct Hbefore as [entries Hentries].
  assert (Hmerge : forall e, load_json_file fs p = Raise e ->
                             merge_log_files now fs (before ++ p :: after) = Raise e).
  { intros e He. unfold merge_log_files.
    assert (E : Nat.ltb (List.length (before ++ p :: after)) 2 = false)
      by now apply Nat.ltb_ge.
    assert (Hl : loader p = Raise e) by (unfold loader; now rewrite He).
    rewrite E. fold loader.
    rewrite (@mapM_raise _ _ loader before after p entries e Hentries Hl).
    reflexivity. }
  split.
  - intros H. apply Hmerge. unfold load_json_file. now rewrite H.
  - intros detail H. apply Hmerge. unfold load_json_file. now rewrite H.
Qed.

Lemma load_errors_come_first_witness :
  merge_log_files "t" (files [("c.json", doc_bad_data)]) ["c.json"; "gone.json"]
  = Raise (FileNotFoundError "File not found: gone.json").
Proof.
  refine (proj1 (@load_errors_come_first "t" (files [("c.json", doc_bad_data)])
                   ["c.json"] [] "gone.json" _ _) _).
  - simpl. lia.
  - constructor; [now exists doc_bad_data | constructor].
  - reflexivity.
Defined.

(** *** The records of the result *)

(** X3.  The merge neither loses nor invents records: the [data] of every
    result holds exactly the records of the inputs, each as often as the
    inputs had it, whether the sort ran to its end or not. *)
Theorem merged_data_permutation (now : string) (fs : filesystem)
    (file_paths : list string) (docs : list json) (r : json) :
  holds fs file_paths docs ->
  merge_log_files now fs file_paths = Ok r ->
  exists records,
    field "data" r = Some (JArr records) /\
    Permutation records (all_records docs).
Proof.
  intros Hh H. destruct (merge_log_files_ok now Hh H) as [Hlen Hv].
  destruct (merge_log_files_valid now Hh Hlen Hv)
    as (p & ps & base & others & -> & -> & E).
  rewrite E in H.
  apply bind_ok in H as ([sorted finished] & Hs & H).
  apply bind_ok in H as (ms & _ & H). injection H as <-.
  exists sorted. split; [apply field_data_merged|].
  exact (sort_records_permutation _ Hs).
Qed.

Lemma merged_data_permutation_witness :
  exists records,
    field "data"
      (JObj [("data", JArr [record (JInt 2) "b"; record (JInt 5) "a"]);
             ("merged_sources",
              JObj [("merged_at", JStr "t"); ("base_file", JStr "a.json");
                    ("additional_files", JArr [JStr "b.json"]);
                    ("total_files_merged", JInt 2)])])
    = Some (JArr records) /\
    Permutation records (all_records [doc_a; doc_b]).
Proof.
  apply (@merged_data_permutation "t" fs_ab ["a.json"; "b.json"] [doc_a; doc_b]).
  - reflexivity.
  - reflexivity.
Defined.

(** X4.  A record that is not an object stops the merge: for two or more
    valid documents of which some record is a string, a number, a list or
    [null], the merge raises [AttributeError], which the [try] around the
    sort does not catch. *)
Theorem record_not_object_raises (now : string) (fs : filesystem)
    (file_paths : list string) (docs : list json) :
  holds fs file_paths docs ->
  (2 <= List.length file_paths)%nat ->
  Forall (fun doc => valid_document doc = true) docs ->
  forallb is_object (all_records docs) = false ->
  merge_log_files now fs file_paths = Raise AttributeError.
Proof.
  intros Hh Hlen Hv Hobj.
  destruct (merge_log_files_valid now Hh Hlen Hv)
    as (p & ps & base & others & -> & -> & E).
  rewrite E, (sort_records_other _ Hobj). reflexivity.
Qed.

Lemma record_not_object_raises_witness :
  merge_log_files "t" (files [("a.json", doc_a); ("p.json", doc_plain_record)])
    ["a.json"; "p.json"]
  = Raise AttributeError.
Proof.
  apply (@record_not_object_raises "t"
           (files [("a.json", doc_a); ("p.json", doc_plain_record)])
           ["a.json"; "p.json"] [doc_a; doc_plain_record]).
  - reflexivity.
  - simpl. lia.
  - repeat constructor.
  - reflexivity.
Defined.

(** X5.  When the timestamps of the first two records do not compare, the
    sort gives up before it has moved anything: the [data] of the result is
    the records in concatenation order. *)
Theorem first_comparison_fails_keeps_order (now : string) (fs : filesystem)
    (file_paths : list string) (docs : list json) (r first second : json)
    (others : list json) :
  holds fs file_paths docs ->
  all_records docs = first :: second :: others ->
  py_lt (timestamp_of second) (timestamp_of first) = None ->
  merge_log_files now fs file_paths = Ok r ->
  field "data" r = Some (JArr (all_records docs)).
Proof.
  intros Hh Hrecords Hlt H. destruct (merge_log_files_ok now Hh H) as [Hlen Hv].
  destruct (merge_log_files_valid now Hh Hlen Hv)
    as (p & ps & base & rest & -> & -> & E).
  rewrite E in H.
  apply bind_ok in H as ([sorted finished] & Hs & H).
  apply bind_ok in H as (ms & _ & H). injection H as <-.
  rewrite field_data_merged. do 2 f_equal.
  destruct (forallb is_object (all_records (JObj base :: rest))) eqn:Hobj.
  - assert (Hk : keyed (all_records (JObj base :: rest))
                 = (timestamp_of first, first) :: (timestamp_of second, second)
                   :: keyed others) by now rewrite Hrecords.
    rewrite (sort_records_objects _ Hobj), Hk in Hs.
    rewrite list_sort_first_comparison in Hs by exact Hlt.
    injection Hs as <- _. rewrite Hrecords.
    cbn [fst snd map]. now rewrite keyed_records.
  - rewrite (sort_records_other _ Hobj) in Hs. discriminate.
Qed.

Lemma first_comparison_fails_keeps_order_witness :
  field "data"
    (JObj [("data", JArr [record (JStr "noon") "x"; record JNull "y";
                          record (JInt 2) "b"]);
           ("merged_sources",
            JObj [("merged_at", JStr "t"); ("base_file", JStr "x.json");
                  ("additional_files", JArr [JStr "b.json"]);
                  ("total_files_merged", JInt 2)])])
  = Some (JArr (all_records [doc_text_times; doc_b])).
Proof.
  apply (@first_comparison_fails_keeps_order "t"
           (files [("x.json", doc_text_times); ("b.json", doc_b)])
           ["x.json"; "b.json"] [doc_text_times; doc_b] _
           (record (JStr "noon") "x") (record JNull "y") [record (JInt 2) "b"]).
  - reflexivity.
  - reflexivity.
  - reflexivity.
  - reflexivity.
Defined.

Lemma keyed_key_of_record (records : list json) :
  Forall key_of_record (keyed records).
Proof.
  unfold keyed. apply Forall_forall. intros e He.
  apply in_map_iff in He as (r & <- & _). reflexivity.
Qed.

Lemma sorted_records (l : list (json * json)) :
  Forall key_of_record l ->
  StronglySorted (key_le num_ltb) l ->
  StronglySorted (fun a b => num_leb (timestamp_of a) (timestamp_of b) = true)
    (map snd l).
Proof.
  intros Hk Hs. induction Hs as [|x l Hs IH Hx]; simpl; [constructor|].
  inversion Hk as [|? ? Kx Kl]; subst. constructor; [auto|].
  apply Forall_forall. intros b Hb. apply in_map_iff in Hb as (y & <- & Hy).
  rewrite Forall_forall in Hx, Kl. specialize (Hx y Hy). specialize (Kl y Hy).
  unfold key_le in Hx. unfold key_of_record in Kx, Kl.
  unfold num_leb. rewrite <- Kx, <- Kl, Hx. reflexivity.
Qed.

Lemma filter_records (t : json) (l : list (json * json)) :
  Forall key_of_record l ->
  map snd (filter (key_eqv num_ltb t) l)
  = filter (fun r => same_time t (timestamp_of r)) (map snd l).
Proof.
  induction 1 as [|x l Kx Kl IH]; simpl; [reflexivity|].
  unfold key_of_record in Kx.
  change (key_eqv num_ltb t x)
    with (negb (num_ltb t (fst x)) && negb (num_ltb (fst x) t)).
  unfold same_time at 1. rewrite <- Kx.
  destruct (negb (num_ltb t (fst x)) && negb (num_ltb (fst x) t)); simpl;
    now rewrite IH.
Qed.

Lemma sort_numbers (l : list (json * json)) :
  Forall (keyP ranked) l -> list_sort py_lt l = (stable_sort num_ltb l, true).
Proof.
  apply (list_sort_spec py_lt num_ltb py_lt_ranked num_ltb_irrefl
           num_ltb_trans num_ltb_negtrans).
Qed.

(** X6.  When every record is an object whose timestamp is a number, an
    absent timestamp counting as 0, the [data] of the result is in
    non-decreasing order of timestamp, and the records of one timestamp keep
    the order they had in the concatenation of the inputs. *)
Theorem numeric_timestamps_sorted (now : string) (fs : filesystem)
    (file_paths : list string) (docs : list json) (r : json) :
  holds fs file_paths docs ->
  Forall (fun record => is_object record = true /\
                        is_number (timestamp_of record) = true)
    (all_records docs) ->
  merge_log_files now fs file_paths = Ok r ->
  exists records,
    field "data" r = Some (JArr records) /\
    StronglySorted
      (fun a b => num_leb (timestamp_of a) (timestamp_of b) = true) records /\
    forall t, is_number t = true ->
      filter (fun record => same_time t (timestamp_of record)) records
      = filter (fun record => same_time t (timestamp_of record)) (all_records docs).
Proof.
  intros Hh Hnum H. destruct (merge_log_files_ok now Hh H) as [Hlen Hv].
  destruct (merge_log_files_valid now Hh Hlen Hv)
    as (p & ps & base & rest & -> & -> & E).
  rewrite E in H. clear E.
  apply bind_ok in H as ([sorted finished] & Hs & H).
  apply bind_ok in H as (ms & _ & H). injection H as <-.
  exists sorted. split; [apply field_data_merged|].
  set (records := all_records (JObj base :: rest)) in *.
  assert (Hobj : forallb is_object records = true).
  { apply forallb_forall. rewrite Forall_forall in Hnum.
    intros x Hx. now apply Hnum. }
  assert (Hranked : Forall (keyP ranked) (keyed records)).
  { apply Forall_forall. intros e He. unfold keyed in He.
    apply in_map_iff in He as (x & <- & Hx). unfold keyP. simpl.
    apply is_number_ranked. rewrite Forall_forall in Hnum. now apply Hnum. }
  rewrite (sort_records_objects _ Hobj), (sort_numbers Hranked) in Hs.
  injection Hs as <- _. cbn [fst].
  assert (Hkeys : Forall key_of_record (stable_sort num_ltb (keyed records))).
  { pose proof (list_sort_permutation py_lt (keyed records)) as Hp.
    rewrite (sort_numbers Hranked) in Hp. cbn [fst] in Hp.
    eapply Permutation_Forall; [symmetry; exact Hp|].
    apply keyed_key_of_record. }
  split.
  - apply (sorted_records Hkeys).
    apply (stable_sort_sorted num_ltb num_ltb_irrefl num_ltb_trans
             num_ltb_negtrans Hranked).
  - intros t Ht.
    rewrite <- (filter_records t Hkeys).
    rewrite (stable_sort_stable num_ltb num_ltb_irrefl num_ltb_trans
               num_ltb_negtrans t (is_number_ranked _ Ht) Hranked).
    rewrite (filter_records t (keyed_key_of_record records)).
    now rewrite keyed_records.
Qed.

Lemma numeric_timestamps_sorted_witness :
  exists records,
    field "data"
      (JObj [("data", JArr [JObj [("v", JStr "q")]; record (JInt 0) "u";
                            record (JFloat (FFin 3 (-1))) "r";
                            record (JInt 7) "p"; record (JInt 7) "s"]);
             ("merged_sources",
              JObj [("merged_at", JStr "t"); ("base_file", JStr "1.json");
                    ("additional_files", JArr [JStr "2.json"]);
                    ("total_files_merged", JInt 2)])])
    = Some (JArr records) /\
    StronglySorted
      (fun a b => num_leb (timestamp_of a) (timestamp_of b) = true) records /\
    forall t, is_number t = true ->
      filter (fun record => same_time t (timestamp_of record)) records
      = filter (fun record => same_time t (timestamp_of record))
          (all_records [doc_times_1; doc_times_2]).
Proof.
  apply (@numeric_timestamps_sorted "t"
           (files [("1.json", doc_times_1); ("2.json", doc_times_2)])
           ["1.json"; "2.json"] [doc_times_1; doc_times_2]).
  - reflexivity.
  - repeat constructor.
  - vm_compute. reflexivity.
Defined.

(** *** The lineage *)

Lemma lineage_of_new_base (now p : string) (ps : list string)
    (base : list (string * json)) :
  dict_lookup "merged_sources" base = None ->
  create_merged_metadata now p ps (JObj base) = Ok (new_lineage now p ps).
Proof.
  intros H. unfold create_merged_metadata, is_merged_file, py_contains.
  rewrite dict_contains_lookup, H. reflexivity.
Qed.

Lemma lineage_of_merged_base (now p : string) (ps : list string)
    (base existing : list (string * json)) :
  dict_lookup "merged_sources" base = Some (JObj existing) ->
  create_merged_metadata now p ps (JObj base)
  = match dict_get "additional_files" (JArr []) existing with
    | JArr inherited =>
        match dict_get "previous_merges" (JArr []) existing with
        | JArr history =>
            Ok (extended_lineage now p ps existing inherited history)
        | _ => Raise AttributeError
        end
    | _ => Raise TypeError
    end.
Proof.
  intros H. unfold create_merged_metadata, is_merged_file, py_contains.
  assert (Hg : dict_get "merged_sources" (JObj []) base = JObj existing)
    by (unfold dict_get; now rewrite H).
  rewrite dict_contains_lookup, H. cbn [bind py_get]. rewrite Hg.
  cbn [bind py_get].
  destruct (dict_get "additional_files" (JArr []) existing); reflexivity.
Qed.

(** X7.  Two or more valid documents whose records are all objects and
    whose base carries no [merged_sources] always merge, whatever the
    timestamps are, and the lineage of the result has exactly four fields:
    [merged_at], the base's own path as [base_file], the other paths in input
    order as [additional_files], and their number plus one as
    [total_files_merged].  It has no [previous_merges] field. *)
Theorem merge_of_new_base (now : string) (fs : filesystem) (p : string)
    (ps : list string) (base : list (string * json)) (others : list json) :
  holds fs (p :: ps) (JObj base :: others) ->
  (1 <= List.length ps)%nat ->
  Forall (fun doc => valid_document doc = true) (JObj base :: others) ->
  forallb is_object (all_records (JObj base :: others)) = true ->
  dict_lookup "merged_sources" base = None ->
  exists r,
    merge_log_files now fs (p :: ps) = Ok r /\
    lineage r = Some (new_lineage now p ps) /\
    lineage_field "previous_merges" r = None.
Proof.
  intros Hh Hlen Hv Hobj Hnew.
  destruct (merge_log_files_valid now Hh) as (p' & ps' & base' & others' & E1 & E2 & E);
    [simpl; lia | assumption |].
  injection E1 as <- <-. injection E2 as <- <-.
  rewrite E, (sort_records_objects _ Hobj), (@lineage_of_new_base now p ps base Hnew).
  cbn [bind fst]. eexists. split; [reflexivity|].
  unfold lineage_field. rewrite lineage_merged. split; reflexivity.
Qed.

Lemma merge_of_new_base_witness :
  exists r,
    merge_log_files "t" fs_ab ["a.json"; "b.json"] = Ok r /\
    lineage r = Some (new_lineage "t" "a.json" ["b.json"]) /\
    lineage_field "previous_merges" r = None.
Proof.
  apply (@merge_of_new_base "t" fs_ab "a.json" ["b.json"]
           [("data", JArr [record (JInt 5) "a"])] [doc_b]).
  - reflexivity.
  - simpl. lia.
  - repeat constructor.
  - reflexivity.
  - reflexivity.
Defined.

(** X8.  When the base carries a lineage (an object under [merged_sources])
    whose [additional_files] and [previous_merges] are lists or absent, the
    merge extends it: [base_file] is the inherited one (the base's path if
    there is none), [additional_files] the inherited ones followed by the
    new paths, [total_files_merged] their number plus one, and
    [previous_merges] the inherited history followed by one entry with the
    inherited [merged_at] and, as [files_in_merge], the inherited base file
    followed by the inherited additional files. *)
Theorem merge_of_merged_base (now : string) (fs : filesystem) (p : string)
    (ps : list string) (base existing : list (string * json))
    (others inherited history : list json) :
  holds fs (p :: ps) (JObj base :: others) ->
  (1 <= List.length ps)%nat ->
  Forall (fun doc => valid_document doc = true) (JObj base :: others) ->
  forallb is_object (all_records (JObj base :: others)) = true ->
  dict_lookup "merged_sources" base = Some (JObj existing) ->
  dict_get "additional_files" (JArr []) existing = JArr inherited ->
  dict_get "previous_merges" (JArr []) existing = JArr history ->
  exists r,
    merge_log_files now fs (p :: ps) = Ok r /\
    lineage r = Some (extended_lineage now p ps existing inherited history).
Proof.
  intros Hh Hlen Hv Hobj Hm Ha Hp.
  destruct (merge_log_files_valid now Hh) as (p' & ps' & base' & others' & E1 & E2 & E);
    [simpl; lia | assumption |].
  injection E1 as <- <-. injection E2 as <- <-.
  rewrite E, (sort_records_objects _ Hobj), (@lineage_of_merged_base now p ps base existing Hm).
  rewrite Ha, Hp. cbn [bind fst]. eexists. split; [reflexivity|].
  apply lineage_merged.
Qed.

Lemma merge_of_merged_base_witness :
  exists r,
    merge_log_files "t1" (files [("m.json", doc_merged); ("b.json", doc_b)])
      ["m.json"; "b.json"] = Ok r /\
    lineage r
    = Some (JObj [("merged_at", JStr "t1"); ("base_file", JStr "x.json");
                  ("additional_files", JArr [JStr "y.json"; JStr "b.json"]);
                  ("total_files_merged", JInt 3);
                  ("previous_merges",
                   JArr [JObj [("merged_at", JStr "t0");
                               ("files_in_merge",
                                JArr [JStr "x.json"; JStr "y.json"])]])]).
Proof.
  apply (@merge_of_merged_base "t1"
           (files [("m.json", doc_merged); ("b.json", doc_b)])
           "m.json" ["b.json"]
           [("data", JArr [record (JInt 1) "m"]);
            ("merged_sources",
             JObj [("merged_at", JStr "t0"); ("base_file", JStr "x.json");
                   ("additional_files", JArr [JStr "y.json"]);
                   ("total_files_merged", JInt 2)])]
           [("merged_at", JStr "t0"); ("base_file", JStr "x.json");
            ("additional_files", JArr [JStr "y.json"]);
            ("total_files_merged", JInt 2)]
           [doc_b] [JStr "y.json"] []).
  - reflexivity.
  - simpl. lia.
  - repeat constructor.
  - reflexivity.
  - reflexivity.
  - reflexivity.
  - reflexivity.
Defined.

Lemma lineage_of_odd_base (now p : string) (ps : list string)
    (base : list (string * json)) (v : json) :
  dict_lookup "merged_sources" base = Some v -> is_object v = false ->
  create_merged_metadata now p ps (JObj base) = Raise AttributeError.
Proof.
  intros H Hv. unfold create_merged_metadata, is_merged_file, py_contains.
  assert (Hg : dict_get "merged_sources" (JObj []) base = v)
    by (unfold dict_get; now rewrite H).
  rewrite dict_contains_lookup, H. cbn [bind py_get]. rewrite Hg.
  destruct v; try discriminate; reflexivity.
Qed.

(** X9.  Merging the result of a merge: when a first merge of [x] and the
    paths [ys], whose base carried no lineage, returned the document [a], and
    [a] is then merged as the base with the paths [zs], the lineage of the
    second result has [x] as [base_file], [ys] followed by [zs] as
    [additional_files], their number plus one as [total_files_merged], and
    one entry in [previous_merges]: the time of the first merge with [x]
    followed by [ys] as [files_in_merge]. *)
Theorem merge_of_a_merge (now1 now2 : string) (fs1 fs2 : filesystem)
    (x pa : string) (ys zs : list string) (base : list (string * json))
    (others1 others2 : list json) (a r : json) :
  holds fs1 (x :: ys) (JObj base :: others1) ->
  dict_lookup "merged_sources" base = None ->
  merge_log_files now1 fs1 (x :: ys) = Ok a ->
  holds fs2 (pa :: zs) (a :: others2) ->
  merge_log_files now2 fs2 (pa :: zs) = Ok r ->
  lineage r
  = Some (JObj [ ("merged_at", JStr now2);
                 ("base_file", JStr x);
                 ("additional_files", JArr (map JStr (ys ++ zs)));
                 ("total_files_merged",
                  JInt (Z.of_nat (List.length ys + List.length zs) + 1));
                 ("previous_merges",
                  JArr [JObj [ ("merged_at", JStr now1);
                               ("files_in_merge", JArr (map JStr (x :: ys))) ]]) ]).
Proof.
  intros Hh1 Hnew H1 Hh2 H2.
  destruct (merge_log_files_ok now1 Hh1 H1) as [Hlen1 Hv1].
  destruct (merge_log_files_valid now1 Hh1 Hlen1 Hv1)
    as (p' & ps' & base' & others' & E1 & E2 & E).
  injection E1 as <- <-. injection E2 as <- <-.
  rewrite E in H1. clear E.
  apply bind_ok in H1 as (sorted1 & _ & H1).
  rewrite (@lineage_of_new_base now1 x ys base Hnew) in H1.
  cbn [bind] in H1. injection H1 as <-.
  destruct (merge_log_files_ok now2 Hh2 H2) as [Hlen2 Hv2].
  destruct (merge_log_files_valid now2 Hh2 Hlen2 Hv2)
    as (p' & ps' & base' & others' & E1 & E2 & E).
  injection E1 as <- <-. injection E2 as <- <-.
  rewrite E in H2. clear E.
  apply bind_ok in H2 as (sorted2 & _ & H2).
  unfold new_lineage in H2.
  rewrite (@lineage_of_merged_base now2 pa zs _ _
             (dict_lookup_set_same "merged_sources" _ _)) in H2.
  cbn [bind dict_get dict_lookup String.eqb Ascii.eqb Bool.eqb] in H2.
  injection H2 as <-. rewrite lineage_merged.
  unfold extended_lineage, len_plus_1.
  cbn [dict_get dict_lookup String.eqb Ascii.eqb Bool.eqb app map].
  now rewrite map_app, <- map_app, length_map, length_app.
Qed.

Lemma merge_of_a_merge_witness :
  lineage
    (JObj [("data", JArr [record (JInt 2) "b"; record (JInt 2) "b";
                          record (JInt 5) "a"]);
           ("merged_sources",
            JObj [("merged_at", JStr "t2"); ("base_file", JStr "a.json");
                  ("additional_files", JArr [JStr "b.json"; JStr "b.json"]);
                  ("total_files_merged", JInt 3);
                  ("previous_merges",
                   JArr [JObj [("merged_at", JStr "t1");
                               ("files_in_merge",
                                JArr [JStr "a.json"; JStr "b.json"])]])])])
  = Some (JObj [ ("merged_at", JStr "t2");
                 ("base_file", JStr "a.json");
                 ("additional_files", JArr (map JStr (["b.json"] ++ ["b.json"])));
                 ("total_files_merged", JInt (Z.of_nat (1 + 1) + 1));
                 ("previous_merges",
                  JArr [JObj [ ("merged_at", JStr "t1");
                               ("files_in_merge",
                                JArr (map JStr ["a.json"; "b.json"])) ]]) ]).
Proof.
  apply (@merge_of_a_merge "t1" "t2" fs_ab
           (files [("ab.json",
                    JObj [("data", JArr [record (JInt 2) "b"; record (JInt 5) "a"]);
                          ("merged_sources", new_lineage "t1" "a.json" ["b.json"])]);
                   ("b.json", doc_b)])
           "a.json" "ab.json" ["b.json"] ["b.json"]
           [("data", JArr [record (JInt 5) "a"])] [doc_b] [doc_b]
           (JObj [("data", JArr [record (JInt 2) "b"; record (JInt 5) "a"]);
                  ("merged_sources", new_lineage "t1" "a.json" ["b.json"])])).
  - reflexivity.
  - reflexivity.
  - reflexivity.
  - reflexivity.
  - reflexivity.
Defined.

(** X10.  In the lineage of every result, [additional_files] is a list that
    ends with the paths of the additional documents of this merge, in input
    order, and [total_files_merged] is the length of that list plus one. *)
Theorem total_counts_additional_files (now : string) (fs : filesystem)
    (p : string) (ps : list string) (docs : list json) (r : json) :
  holds fs (p :: ps) docs ->
  merge_log_files now fs (p :: ps) = Ok r ->
  exists inherited,
    lineage_field "additional_files" r = Some (JArr (inherited ++ map JStr ps)) /\
    lineage_field "total_files_merged" r
    = Some (JInt (Z.of_nat (List.length (inherited ++ map JStr ps)) + 1)).
Proof.
  intros Hh H.
  destruct (merge_log_files_ok now Hh H) as [Hlen Hv].
  destruct (merge_log_files_valid now Hh Hlen Hv)
    as (p' & ps' & base & others & E1 & -> & E).
  injection E1 as <- <-. rewrite E in H. clear E.
  apply bind_ok in H as (sorted & _ & H).
  apply bind_ok in H as (ms & Hms & H). injection H as <-.
  unfold lineage_field. rewrite lineage_merged.
  destruct (dict_lookup "merged_sources" base) as [v|] eqn:Hm.
  - destruct (is_object v) eqn:Hv'.
    + destruct v; try discriminate.
      rewrite (@lineage_of_merged_base now p ps base kvs Hm) in Hms.
      destruct (dict_get "additional_files" (JArr []) kvs) as [| | | | |inherited|];
        try discriminate.
      destruct (dict_get "previous_merges" (JArr []) kvs); try discriminate.
      injection Hms as <-. exists inherited. split; reflexivity.
    + rewrite (lineage_of_odd_base now p ps _ Hm Hv') in Hms. discriminate.
  - rewrite (@lineage_of_new_base now p ps base Hm) in Hms.
    injection Hms as <-. exists []. split; reflexivity.
Qed.

Lemma total_counts_additional_files_witness :
  exists inherited,
    lineage_field "additional_files"
      (JObj [("data", JArr [record (JInt 1) "m"; record (JInt 2) "b"]);
             ("merged_sources",
              JObj [("merged_at", JStr "t1"); ("base_file", JStr "x.json");
                    ("additional_files", JArr [JStr "y.json"; JStr "b.json"]);
                    ("total_files_merged", JInt 3);
                    ("previous_merges",
                     JArr [JObj [("merged_at", JStr "t0");
                                 ("files_in_merge",
                                  JArr [JStr "x.json"; JStr "y.json"])]])])])
    = Some (JArr (inherited ++ map JStr ["b.json"])) /\
    lineage_field "total_files_merged"
      (JObj [("data", JArr [record (JInt 1) "m"; record (JInt 2) "b"]);
             ("merged_sources",
              JObj [("merged_at", JStr "t1"); ("base_file", JStr "x.json");
                    ("additional_files", JArr [JStr "y.json"; JStr "b.json"]);
                    ("total_files_merged", JInt 3);
                    ("previous_merges",
                     JArr [JObj [("merged_at", JStr "t0");
                                 ("files_in_merge",
                                  JArr [JStr "x.json"; JStr "y.json"])]])])])
    = Some (JInt (Z.of_nat (List.length (inherited ++ map JStr ["b.json"])) + 1)).
Proof.
  apply (@total_counts_additional_files "t1"
           (files [("m.json", doc_merged); ("b.json", doc_b)])
           "m.json" ["b.json"] [doc_merged; doc_b]).
  - reflexivity.
  - reflexivity.
Defined.

(** X11.  The result is the base with two fields replaced: every field of
    the base document other than [data] and [merged_sources] is in the result
    with the value it had, and the result has no other field, so the fields
    of the additional documents are dropped. *)
Theorem base_fields_pass_through (now : string) (fs : filesystem)
    (file_paths : list string) (base : list (string * json))
    (others : list json) (r : json) :
  holds fs file_paths (JObj base :: others) ->
  merge_log_files now fs file_paths = Ok r ->
  forall k, k <> "data" -> k <> "merged_sources" ->
    field k r = dict_lookup k base.
Proof.
  intros Hh H k Hk1 Hk2.
  destruct (merge_log_files_ok now Hh H) as [Hlen Hv].
  destruct (merge_log_files_valid now Hh Hlen Hv)
    as (p & ps & base' & others' & -> & E2 & E).
  injection E2 as <- <-. rewrite E in H. clear E.
  apply bind_ok in H as (sorted & _ & H).
  apply bind_ok in H as (ms & _ & H). injection H as <-.
  unfold field. now rewrite !dict_lookup_set_other.
Qed.

Lemma base_fields_pass_through_witness :
  field "device"
    (JObj [("device", JStr "bWell-7");
           ("data", JArr [record (JInt 1) "w"; record (JInt 1) "m"]);
           ("version", JInt 3);
           ("merged_sources",
            JObj [("merged_at", JStr "t"); ("base_file", JStr "w.json");
                  ("additional_files", JArr [JStr "m.json"]);
                  ("total_files_merged", JInt 2)])])
  = dict_lookup "device"
      [("device", JStr "bWell-7"); ("data", JArr [record (JInt 1) "w"]);
       ("version", JInt 3)].
Proof.
  apply (@base_fields_pass_through "t"
           (files [("w.json", doc_with_fields); ("m.json", doc_merged)])
           ["w.json"; "m.json"] _ [doc_merged]).
  - reflexivity.
  - reflexivity.
  - discriminate.
  - discriminate.
Defined.

(** X12.  A [merged_sources] that is not an object is still taken for a
    lineage, because only the key is tested: for two or more valid documents
    whose base has such a field (a string, a list, a number, [null]) the
    merge raises [AttributeError]. *)
Theorem lineage_not_object_raises (now : string) (fs : filesystem)
    (file_paths : list string) (base : list (string * json))
    (others : list json) (v : json) :
  holds fs file_paths (JObj base :: others) ->
  (2 <= List.length file_paths)%nat ->
  Forall (fun doc => valid_document doc = true) (JObj base :: others) ->
  dict_lookup "merged_sources" base = Some v ->
  is_object v = false ->
  merge_log_files now fs file_paths = Raise AttributeError.
Proof.
  intros Hh Hlen Hv Hm Hobj.
  destruct (merge_log_files_valid now Hh Hlen Hv)
    as (p & ps & base' & others' & -> & E2 & E).
  injection E2 as <- <-. rewrite E. clear E.
  destruct (forallb is_object (all_records (JObj base :: others))) eqn:Hr.
  - rewrite (sort_records_objects _ Hr). cbn [bind].
    now rewrite (lineage_of_odd_base now p ps _ Hm Hobj).
  - now rewrite (sort_records_other _ Hr).
Qed.

Lemma lineage_not_object_raises_witness :
  merge_log_files "t" (files [("l.json", doc_text_lineage); ("b.json", doc_b)])
    ["l.json"; "b.json"]
  = Raise AttributeError.
Proof.
  apply (@lineage_not_object_raises "t"
           (files [("l.json", doc_text_lineage); ("b.json", doc_b)])
           ["l.json"; "b.json"]
           [("data", JArr []); ("merged_sources", JStr "a.json, b.json")]
           [doc_b] (JStr "a.json, b.json")).
  - reflexivity.
  - simpl. lia.
  - repeat constructor.
  - reflexivity.
  - reflexivity.
Defined.

(** X13.  A lineage of the wrong shape stops the merge after the sort: for
    two or more valid documents with object records whose base has an object
    under [merged_sources], an [additional_files] that is present and not a
    list raises [TypeError] (it cannot be added to a list), and a
    [previous_merges] that is present and not a list, beside a well-formed
    [additional_files], raises [AttributeError] (it has no [append]). *)
Theorem lineage_of_wrong_shape_raises (now : string) (fs : filesystem)
    (file_paths : list string) (base existing : list (string * json))
    (others : list json) :
  holds fs file_paths (JObj base :: others) ->
  (2 <= List.length file_paths)%nat ->
  Forall (fun doc => valid_document doc = true) (JObj base :: others) ->
  forallb is_object (all_records (JObj base :: others)) = true ->
  dict_lookup "merged_sources" base = Some (JObj existing) ->
  (forall v, dict_lookup "additional_files" existing = Some v ->
             (forall xs, v <> JArr xs) ->
             merge_log_files now fs file_paths = Raise TypeError) /\
  (forall inherited v,
     dict_get "additional_files" (JArr []) existing = JArr inherited ->
     dict_lookup "previous_merges" existing = Some v ->
     (forall xs, v <> JArr xs) ->
     merge_log_files now fs file_paths = Raise AttributeError).
Proof.
  intros Hh Hlen Hv Hobj Hm.
  destruct (merge_log_files_valid now Hh Hlen Hv)
    as (p & ps & base' & others' & -> & E2 & E).
  injection E2 as <- <-.
  rewrite (sort_records_objects _ Hobj) in E. cbn [bind] in E.
  rewrite (@lineage_of_merged_base now p ps base existing Hm) in E.
  split.
  - intros v Ha Hnot. rewrite E. unfold dict_get at 1. rewrite Ha.
    destruct v; try reflexivity. now destruct (Hnot xs).
  - intros inherited v Ha Hp Hnot. rewrite E, Ha.
    unfold dict_get at 1. rewrite Hp.
    destruct v; try reflexivity. now destruct (Hnot xs).
Qed.

Lemma lineage_of_wrong_shape_raises_witness :
  merge_log_files "t" (files [("h.json", doc_text_history); ("b.json", doc_b)])
    ["h.json"; "b.json"]
  = Raise AttributeError.
Proof.
  refine (proj2 (@lineage_of_wrong_shape_raises "t"
                   (files [("h.json", doc_text_history); ("b.json", doc_b)])
                   ["h.json"; "b.json"]
                   [("data", JArr []);
                    ("merged_sources", JObj [("previous_merges", JStr "none")])]
                   [("previous_merges", JStr "none")] [doc_b] _ _ _ _ _)
            [] (JStr "none") _ _ _).
  - reflexivity.
  - simpl. lia.
  - repeat constructor.
  - reflexivity.
  - reflexivity.
  - reflexivity.
  - reflexivity.
  - intros xs H. discriminate H.
Defined.

Lemma dict_set_twice (k : string) (v v' : json) (d : list (string * json)) :
  dict_set k v (dict_set k v' d) = dict_set k v d.
Proof.
  induction d as [|[k0 v0] d IH]; simpl.
  - now rewrite String.eqb_refl.
  - destruct (String.eqb k k0) eqn:E; simpl; rewrite E; [reflexivity|].
    now rewrite IH.
Qed.

Lemma lineage_and_the_clock (now1 now2 p : string) (ps : list string)
    (base : list (string * json)) :
  create_merged_metadata now2 p ps (JObj base)
  = match create_merged_metadata now1 p ps (JObj base) with
    | Ok (JObj l) => Ok (JObj (dict_set "merged_at" (JStr now2) l))
    | other => other
    end.
Proof.
  destruct (dict_lookup "merged_sources" base) as [v|] eqn:Hm.
  - destruct (is_object v) eqn:Hv.
    + destruct v; try discriminate.
      rewrite !(@lineage_of_merged_base _ p ps base kvs Hm).
      destruct (dict_get "additional_files" (JArr []) kvs); try reflexivity.
      destruct (dict_get "previous_merges" (JArr []) kvs); reflexivity.
    + now rewrite !(lineage_of_odd_base _ p ps _ Hm Hv).
  - now rewrite !(@lineage_of_new_base _ p ps base Hm).
Qed.

(** X14.  The time of the call is written to one place only.  Two runs on
    the same files at different times raise the same exception, or return
    two documents of which the second is the first with the [merged_at] of
    its lineage replaced by the second time; their [data] are equal. *)
Theorem clock_shows_in_merged_at_only (now1 now2 : string) (fs : filesystem)
    (file_paths : list string) :
  match merge_log_files now1 fs file_paths, merge_log_files now2 fs file_paths with
  | Ok r1, Ok r2 =>
      r2 = with_merged_at now2 r1 /\ field "data" r2 = field "data" r1
  | Raise e1, Raise e2 => e1 = e2
  | _, _ => False
  end.
Proof.
  unfold merge_log_files.
  destruct (Nat.ltb (List.length file_paths) 2); [reflexivity|].
  destruct (mapM _ file_paths) as [entries|e]; cbn [bind]; [|reflexivity].
  unfold merge_loaded. destruct entries as [|[p base] rest]; [reflexivity|].
  destruct (mapM validate _); cbn [bind]; [|reflexivity].
  destruct base as [| | | | | |base]; try reflexivity.
  destruct (data_of _); cbn [bind]; [|reflexivity].
  destruct (mapM _ rest); cbn [bind]; [|reflexivity].
  destruct (sort_records _) as [sorted|]; cbn [bind]; [|reflexivity].
  rewrite (lineage_and_the_clock now1 now2).
  destruct (create_merged_metadata now1 p (map fst rest) (JObj base))
    as [ms|e]; cbn [bind]; [|reflexivity].
  assert (Hdata : forall m m' : json,
             field "data" (JObj (dict_set "merged_sources" m
                                   (dict_set "data" (JArr (fst sorted)) base)))
             = field "data" (JObj (dict_set "merged_sources" m'
                                     (dict_set "data" (JArr (fst sorted)) base)))).
  { intros m m'. now rewrite !field_data_merged. }
  unfold with_merged_at. rewrite dict_lookup_set_same.
  destruct ms; cbn [bind]; split; try reflexivity; try apply Hdata.
  now rewrite dict_set_twice.
Qed.

(* ================================================================== *)
(** ** The lineage over the store *)





Lemma heap_update_new (h t : Heap.store) (k : nat) (o : Heap.obj) :
  Heap.update (h ++ t) (List.length h + k)%nat o = h ++ Heap.update t k o.
Proof.
  induction h as [|o' h IH]; simpl; [reflexivity | now rewrite IH].
Qed.

Lemma heap_read_old (h t : Heap.store) (l : Heap.loc) (o : Heap.obj) :
  nth_error h l = Some o -> Heap.read l (h ++ t) = (Ok o, h ++ t).
Proof.
  intros H. unfold Heap.read. rewrite nth_error_app1, H; [reflexivity|].
  apply nth_error_Some. congruence.
Qed.

Lemma heap_read_new (h t : Heap.store) (k : nat) (o : Heap.obj) :
  nth_error t k = Some o ->
  Heap.read (List.length h + k)%nat (h ++ t) = (Ok o, h ++ t).
Proof.
  intros H. unfold Heap.read. rewrite nth_error_app2 by lia.
  replace (List.length h + k - List.length h)%nat with k by lia.
  now rewrite H.
Qed.

Lemma heap_alloc (h t : Heap.store) (o : Heap.obj) :
  Heap.alloc o (h ++ t)
  = (Ok (Heap.VRef (List.length h + List.length t)%nat), h ++ (t ++ [o])).
Proof.
  unfold Heap.alloc. now rewrite length_app, app_assoc.
Qed.

Lemma heap_write_new (h t : Heap.store) (k : nat) (o : Heap.obj) :
  Heap.write (List.length h + k)%nat o (h ++ t) = (Ok tt, h ++ Heap.update t k o).
Proof.
  unfold Heap.write. now rewrite heap_update_new.
Qed.


Ltac heap_cbn :=
  cbn [Heap.lookup Heap.set_item String.eqb Ascii.eqb Bool.eqb List.length app
       Heap.update nth_error fst snd Nat.add].




(** X16.  When the base has no lineage, or a lineage without
    [previous_merges] (as a first merge writes it), the lineage code changes
    no object of its caller: the store after the call is the store before it
    followed by new objects. *)
Theorem lineage_only_allocates (now p : string) (f b : Heap.loc)
    (h : Heap.store) (d : list (string * Heap.val)) (fl : list Heap.val) :
  nth_error h b = Some (Heap.ODict d) ->
  nth_error h f = Some (Heap.OList fl) ->
  (Heap.lookup "merged_sources" d = None \/
   exists s e a al,
     Heap.lookup "merged_sources" d = Some (Heap.VRef s) /\
     nth_error h s = Some (Heap.ODict e) /\
     Heap.lookup "additional_files" e = Some (Heap.VRef a) /\
     nth_error h a = Some (Heap.OList al) /\
     Heap.lookup "previous_merges" e = None) ->
  exists m new,
    Heap.create_merged_metadata now p (Heap.VRef f) (Heap.VRef b) h
    = (Ok (Heap.VRef m), h ++ new).
Proof.
  intros Hb Hf [Hd | (s & e & a & al & Hd & Hs & Ha & Hal & Hq)];
    do 2 eexists;
    rewrite <- (app_nil_r h) at 1;
    unfold Heap.create_merged_metadata, Heap.len_plus_1, Heap.is_merged_file,
      Heap.py_contains, Heap.py_get, Heap.py_getitem, Heap.py_setitem,
      Heap.py_add, Heap.py_append, Heap.list_items, Heap.bindM, Heap.ret,
      Heap.raise.
  - repeat (heap_cbn;
            first [ rewrite heap_alloc
                  | rewrite (@heap_read_old _ _ _ _ Hb)
                  | rewrite (@heap_read_old _ _ _ _ Hf)
                  | erewrite heap_read_new by reflexivity
                  | rewrite heap_write_new
                  | rewrite Hd ]).
    heap_cbn. reflexivity.
  - repeat (heap_cbn;
            first [ rewrite heap_alloc
                  | rewrite (@heap_read_old _ _ _ _ Hb)
                  | rewrite (@heap_read_old _ _ _ _ Hs)
                  | rewrite (@heap_read_old _ _ _ _ Hal)
                  | rewrite (@heap_read_old _ _ _ _ Hf)
                  | erewrite heap_read_new by reflexivity
                  | rewrite heap_write_new
                  | rewrite Hd | rewrite Ha | rewrite Hq ]).
    heap_cbn. reflexivity.
Qed.

Lemma lineage_only_allocates_witness :
  exists m new,
    Heap.create_merged_metadata "t1" "m.json" (Heap.VRef 0%nat) (Heap.VRef 5%nat)
      store_once_merged
    = (Ok (Heap.VRef m), store_once_merged ++ new).
Proof.
  apply (@lineage_only_allocates "t1" "m.json" 0%nat 5%nat store_once_merged
           [("data", Heap.VRef 2%nat); ("merged_sources", Heap.VRef 4%nat)]
           [Heap.VStr "c.json"]).
  - reflexivity.
  - reflexivity.
  - right.
    exists 4%nat,
      [("merged_at", Heap.VStr "t0"); ("base_file", Heap.VStr "x.json");
       ("additional_files", Heap.VRef 3%nat);
       ("total_files_merged", Heap.VInt 2)],
      3%nat, [Heap.VStr "y.json"].
    repeat split; reflexivity.
Defined.

(** *** More on errors *)

Lemma lineage_raises (now p : string) (ps : list string)
    (base : list (string * json)) (e : exn) :
  create_merged_metadata now p ps (JObj base) = Raise e ->
  e = AttributeError \/ e = TypeError.
Proof.
  destruct (dict_lookup "merged_sources" base) as [v|] eqn:Hm.
  - destruct (is_object v) eqn:Hv.
    + destruct v; try discriminate.
      rewrite (@lineage_of_merged_base now p ps base kvs Hm).
      destruct (dict_get "additional_files" (JArr []) kvs);
        try (intros H; injection H as <-; now right).
      destruct (dict_get "previous_merges" (JArr []) kvs);
        try (intros H; injection H as <-; now left).
      discriminate.
    + rewrite (lineage_of_odd_base now p ps _ Hm Hv).
      intros H; injection H as <-. now left.
  - rewrite (@lineage_of_new_base now p ps base Hm). discriminate.
Qed.

(** X17.  Once two or more documents have passed the validation, the merge
    raises no [ValueError] any more: it returns, or it raises
    [AttributeError] or [TypeError] from the sort key or from the lineage. *)
Theorem valid_documents_fail_untyped (now : string) (fs : filesystem)
    (file_paths : list string) (docs : list json) (e : exn) :
  holds fs file_paths docs ->
  (2 <= List.length file_paths)%nat ->
  Forall (fun doc => valid_document doc = true) docs ->
  merge_log_files now fs file_paths = Raise e ->
  e = AttributeError \/ e = TypeError.
Proof.
  intros Hh Hlen Hv H.
  destruct (merge_log_files_valid now Hh Hlen Hv)
    as (p & ps & base & others & -> & -> & E).
  rewrite E in H. clear E.
  destruct (forallb is_object (all_records (JObj base :: others))) eqn:Hr.
  - rewrite (sort_records_objects _ Hr) in H. cbn [bind] in H.
    destruct (create_merged_metadata now p ps (JObj base)) as [ms|e'] eqn:Hc;
      [discriminate|].
    cbn [bind] in H. injection H as <-. eapply lineage_raises; eauto.
  - rewrite (sort_records_other _ Hr) in H. injection H as <-. now left.
Qed.

Lemma valid_documents_fail_untyped_witness :
  AttributeError = AttributeError \/ AttributeError = TypeError.
Proof.
  apply (@valid_documents_fail_untyped "t"
           (files [("a.json", doc_a); ("p.json", doc_plain_record)])
           ["a.json"; "p.json"] [doc_a; doc_plain_record]).
  - reflexivity.
  - simpl. lia.
  - repeat constructor.
  - reflexivity.
Defined.

(** X18.  A file whose JSON is not an object is not rejected as such: after
    valid documents, a list that has no item equal to the string ["data"],
    or a string that does not contain [data], is reported as missing the
    [data] field; a list or a string that does, and any number, boolean or
    [null], raises [TypeError]. *)
Theorem document_not_object (now : string) (fs : filesystem)
    (before after : list (string * json)) (p : string) (doc : json) :
  let entries := before ++ (p, doc) :: after in
  holds fs (map fst entries) (map snd entries) ->
  (2 <= List.length entries)%nat ->
  Forall (fun entry => valid_document (snd entry) = true) before ->
  is_object doc = false ->
  merge_log_files now fs (map fst entries)
  = Raise (match doc with
           | JArr xs =>
               if existsb (py_eq (JStr "data")) xs then TypeError
               else MissingDataField p
           | JStr s =>
               if str_contains "data" s then TypeError else MissingDataField p
           | _ => TypeError
           end).
Proof.
  intros entries Hh Hlen Hb Hdoc. unfold merge_log_files.
  assert (E : Nat.ltb (List.length (map fst entries)) 2 = false)
    by (apply Nat.ltb_ge; now rewrite length_map).
  rewrite E, (load_all Hh), combine_fst_snd. cbn [bind].
  apply merge_loaded_invalid. unfold entries.
  eapply mapM_raise; [apply (validate_all Hb)|].
  unfold validate.
  destruct doc as [| | | |s|xs|]; try discriminate; cbn [py_contains bind];
    try reflexivity.
  - destruct (str_contains "data" s); reflexivity.
  - destruct (existsb (py_eq (JStr "data")) xs); reflexivity.
Qed.

Lemma document_not_object_witness :
  merge_log_files "t" (files [("a.json", doc_a); ("l.json", JArr [JInt 1])])
    ["a.json"; "l.json"]
  = Raise (MissingDataField "l.json").
Proof.
  apply (@document_not_object "t"
           (files [("a.json", doc_a); ("l.json", JArr [JInt 1])])
           [("a.json", doc_a)] [] "l.json" (JArr [JInt 1])).
  - reflexivity.
  - simpl. lia.
  - repeat constructor.
  - reflexivity.
Defined.

(* ================================================================== *)
(** ** A sort that is interrupted *)

(** [x] is an item whose key [<] cannot compare with the keys that [P]
    holds of; it comes after items with such keys. *)
Section SortInterrupted.

Variables K V : Type.
Variable lt : K -> K -> option bool.
Variable ltb : K -> K -> bool.
Variable P : K -> Prop.
Variable x : K * V.

Hypothesis lt_answers : forall a b, P a -> P b -> lt a b = Some (ltb a b).
Hypothesis ltb_irrefl : forall a, P a -> ltb a a = false.
Hypothesis ltb_trans : forall a b c, P a -> P b -> P c ->
  ltb a b = true -> ltb b c = true -> ltb a c = true.
Hypothesis ltb_negtrans : forall a b c, P a -> P b -> P c ->
  ltb a b = false -> ltb b c = false -> ltb a c = false.
Hypothesis x_raises : forall k, P k -> lt (fst x) k = None.

Local Abbreviation key_le := (@key_le K V ltb).
Local Abbreviation keyP := (@keyP K V P).
Local Abbreviation insertion := (fun acc y => insert (V := V) ltb y acc).

Lemma bsearch_raises (a : list (K * V)) :
  a <> [] -> Forall keyP a ->
  bsearch lt (fst x) a 0 (List.length a) (List.length a) = None.
Proof.
  intros Ha HP. destruct a as [|y a]; [congruence|].
  cbn [List.length bsearch]. change (Nat.ltb 0 (S (List.length a))) with true.
  cbv iota. rewrite Nat.sub_0_r. cbn [Nat.add].
  assert (Hdiv : (Nat.div2 (S (List.length a)) < S (List.length a))%nat)
    by (apply Nat.lt_div2; lia).
  remember (Nat.div2 (S (List.length a))) as half eqn:Hhalf. clear Hhalf.
  destruct (nth_error (y :: a) half) as [z|] eqn:Ez.
  - rewrite x_raises; [reflexivity|].
    rewrite Forall_forall in HP. apply HP. eapply nth_error_In; eauto.
  - apply nth_error_None in Ez. simpl in Ez. lia.
Qed.

Lemma binarysort_app (rest r sorted : list (K * V)) :
  Forall keyP rest -> Forall keyP sorted -> StronglySorted key_le sorted ->
  binarysort lt sorted (rest ++ r)
  = binarysort lt (fold_left insertion rest sorted) r.
Proof.
  intros Hrest. revert sorted.
  induction Hrest as [|y rest Hy Hrest IH]; intros sorted HP HS.
  - reflexivity.
  - cbn [app binarysort fold_left].
    destruct (bsearch_spec lt lt_answers ltb_negtrans (fst y) Hy HP HS
                (fuel := List.length sorted) (l := 0%nat)
                (r := List.length sorted))
      as (pos & -> & H1 & H2).
    + lia.
    + lia.
    + constructor.
    + rewrite skipn_all. constructor.
    + assert (Hins : firstn pos sorted ++ y :: skipn pos sorted
                     = insert ltb y sorted).
      { rewrite <- (firstn_skipn pos sorted) at 3.
        symmetry. apply insert_middle; [assumption|].
        destruct (skipn pos sorted); [exact I | now inversion H2]. }
      rewrite Hins. apply IH.
      * now apply insert_P.
      * now apply (insert_sorted ltb_irrefl ltb_trans ltb_negtrans).
Qed.

Lemma insert_not_nil (y : K * V) (l : list (K * V)) : insert ltb y l <> [].
Proof.
  destruct l as [|z l]; simpl; [discriminate|].
  destruct (ltb (fst y) (fst z)); discriminate.
Qed.

Lemma fold_insert_not_nil (l acc : list (K * V)) :
  acc <> [] -> fold_left insertion l acc <> [].
Proof.
  revert acc; induction l as [|y l IH]; intros acc H; simpl; [assumption|].
  apply IH. apply insert_not_nil.
Qed.

(** The insertion stops at [x] with the items before it in order. *)
Lemma binarysort_interrupted (rest after sorted : list (K * V)) :
  sorted <> [] ->
  Forall keyP rest -> Forall keyP sorted -> StronglySorted key_le sorted ->
  binarysort lt sorted (rest ++ x :: after)
  = (fold_left insertion rest sorted ++ x :: after, false).
Proof.
  intros Hne Hrest HP HS. rewrite binarysort_app by assumption.
  cbn [binarysort]. rewrite bsearch_raises; [reflexivity | |].
  - now apply fold_insert_not_nil.
  - now apply fold_insert_P.
Qed.

Lemma run_ascending_interrupted (l after : list (K * V)) :
  Forall keyP l ->
  forall (prev : K) (n : nat) (acc : list (K * V)),
    P prev -> Forall keyP acc ->
    Forall (fun y => ltb prev (fst y) = false) acc ->
    (exists k,
        (k < List.length l)%nat /\
        run_ascending lt prev (l ++ x :: after) n = Some (n + k)%nat /\
        fold_left insertion (firstn k l) acc = acc ++ firstn k l) \/
    (run_ascending lt prev (l ++ x :: after) n = None /\
     fold_left insertion l acc = acc ++ l).
Proof.
  induction 1 as [|y l Hy Hl IH]; intros prev n acc Hprev Hacc Hinv.
  - right. cbn [app run_ascending]. rewrite (x_raises Hprev).
    now rewrite app_nil_r.
  - cbn [app run_ascending]. rewrite (lt_answers Hy Hprev).
    destruct (ltb (fst y) prev) eqn:E.
    + left. exists 0%nat. rewrite Nat.add_0_r, app_nil_r.
      simpl. repeat split; lia.
    + assert (Hyacc : Forall (fun z => ltb (fst y) (fst z) = false) acc).
      { rewrite Forall_forall in *. intros z Hz.
        apply (ltb_negtrans Hy Hprev (Hacc z Hz) E). apply Hinv. assumption. }
      assert (Hins : insert ltb y acc = acc ++ [y]).
      { rewrite <- (app_nil_r acc) at 1.
        apply insert_middle; [assumption | exact I]. }
      destruct (IH (fst y) (S n) (acc ++ [y])) as [(k & Hk & Hrun & Hfold)|[Hrun Hfold]].
      * assumption.
      * apply Forall_app. split; [assumption | now constructor].
      * apply Forall_app. split; [assumption|].
        constructor; [now apply ltb_irrefl | constructor].
      * left. exists (S k). split; [simpl; lia|].
        rewrite Hrun. split; [f_equal; lia|].
        cbn [firstn fold_left]. rewrite Hins, Hfold. now rewrite <- app_assoc.
      * right. split; [assumption|].
        cbn [fold_left]. rewrite Hins, Hfold. now rewrite <- app_assoc.
Qed.

Lemma run_descending_interrupted (l after : list (K * V)) :
  Forall keyP l ->
  forall (h : K * V) (n : nat) (acc : list (K * V)),
    keyP h ->
    (exists k,
        (k < List.length l)%nat /\
        run_descending lt (fst h) (l ++ x :: after) n = Some (n + k)%nat /\
        fold_left insertion (firstn k l) (h :: acc) = rev (firstn k l) ++ h :: acc /\
        strictly_descending ltb (h :: l) = false) \/
    (run_descending lt (fst h) (l ++ x :: after) n = None /\
     strictly_descending ltb (h :: l) = true).
Proof.
  induction 1 as [|y l Hy Hl IH]; intros h n acc Hh.
  - right. cbn [app run_descending]. rewrite (x_raises Hh). auto.
  - cbn [app run_descending]. rewrite (lt_answers Hy Hh).
    cbn [strictly_descending].
    destruct (ltb (fst y) (fst h)) eqn:E.
    + destruct (IH y (S n) (h :: acc) Hy) as [(k & Hk & Hrun & Hfold & Hd)|[Hrun Hd]].
      * left. exists (S k). split; [simpl; lia|].
        rewrite Hrun. split; [f_equal; lia|]. split; [|exact Hd].
        cbn [firstn fold_left insert]. rewrite E, Hfold. cbn [rev].
        now rewrite <- app_assoc.
      * right. split; [assumption | exact Hd].
    + left. exists 0%nat. rewrite Nat.add_0_r. simpl. repeat split; lia.
Qed.

(** The sort of numbers followed by an item it cannot compare: the numbers
    end up in order, unless they were strictly descending, in which case
    nothing moves; the item and all after it stay where they were. *)
Lemma list_sort_interrupted (numbers after : list (K * V)) :
  numbers <> [] -> Forall keyP numbers ->
  list_sort lt (numbers ++ x :: after)
  = ((if strictly_descending ltb numbers then numbers
      else stable_sort ltb numbers) ++ x :: after, false).
Proof.
  intros Hne HP. destruct numbers as [|a [|b l]]; [congruence | |].
  - inversion HP as [|? ? Pa _]; subst.
    unfold list_sort. cbn [app List.length]. cbv beta iota delta [Nat.ltb Nat.leb].
    cbn [count_run]. now rewrite (x_raises Pa).
  - inversion HP as [|? ? Pa HP']; subst. inversion HP' as [|? ? Pb Pl]; subst.
    unfold list_sort. cbn [app List.length]. cbv beta iota delta [Nat.ltb Nat.leb].
    cbn [count_run]. rewrite (lt_answers Pb Pa).
    cbn [strictly_descending].
    assert (Hsplit : forall k, (k < List.length l)%nat ->
              firstn (2 + k) (a :: b :: l ++ x :: after) = a :: b :: firstn k l /\
              skipn (2 + k) (a :: b :: l ++ x :: after) = skipn k l ++ x :: after).
    { intros k Hk. cbn [Nat.add firstn skipn].
      rewrite firstn_app, skipn_app.
      replace (k - List.length l)%nat with 0%nat by lia.
      cbn [firstn skipn]. now rewrite app_nil_r. }
    assert (Hsorted : forall k,
              Forall keyP (a :: b :: firstn k l) /\ Forall keyP (skipn k l)).
    { intros k. rewrite <- (firstn_skipn k l) in Pl.
      apply Forall_app in Pl as [P1 P2]. split; [|assumption].
      now repeat constructor. }
    assert (Hfinish : forall k,
              (k < List.length l)%nat ->
              binarysort lt (stable_sort ltb (a :: b :: firstn k l))
                (skipn k l ++ x :: after)
              = (stable_sort ltb (a :: b :: l) ++ x :: after, false)).
    { intros k Hk. destruct (Hsorted k) as [P1 P2].
      rewrite binarysort_interrupted.
      - unfold stable_sort.
        change (fold_left insertion (skipn k l)
                  (fold_left insertion (a :: b :: firstn k l) []))
          with (fold_left insertion (skipn k l)
                  (fold_left insertion ((a :: b :: firstn k l)) [])).
        rewrite <- fold_left_app. cbn [app]. now rewrite firstn_skipn.
      - unfold stable_sort. cbn [fold_left]. apply fold_insert_not_nil.
        apply insert_not_nil.
      - assumption.
      - apply fold_insert_P; [assumption | constructor].
      - now apply (stable_sort_sorted ltb ltb_irrefl ltb_trans ltb_negtrans). }
    destruct (ltb (fst b) (fst a)) eqn:E; cbn [andb].
    + destruct (run_descending_interrupted after Pl (h := b) 2 [a] Pb)
        as [(k & Hk & -> & Hfold & Hd)|[-> Hd]].
      * cbn [strictly_descending] in Hd. rewrite Hd.
        destruct (Hsplit k Hk) as [-> ->].
        replace (rev (a :: b :: firstn k l))
          with (stable_sort ltb (a :: b :: firstn k l)).
        -- now apply Hfinish.
        -- unfold stable_sort. cbn [fold_left insert]. rewrite E.
           change (fold_left insertion (firstn k l) [b; a]
                   = rev (a :: b :: firstn k l)).
           rewrite Hfold. cbn [rev]. now rewrite <- !app_assoc.
      * cbn [strictly_descending] in Hd. rewrite Hd. reflexivity.
    + destruct (run_ascending_interrupted after Pl (prev := fst b) 2 (acc := [a; b]))
        as [(k & Hk & -> & Hfold)|[-> Hfold]].
      * assumption.
      * now repeat constructor.
      * repeat constructor; [assumption | now apply ltb_irrefl].
      * destruct (Hsplit k Hk) as [-> ->].
        replace (a :: b :: firstn k l)
          with (stable_sort ltb (a :: b :: firstn k l)) at 1.
        -- now apply Hfinish.
        -- unfold stable_sort. cbn [fold_left insert]. rewrite E.
           exact Hfold.
      * unfold stable_sort. cbn [fold_left insert]. rewrite E.
        change (fold_left (fun acc y => insert ltb y acc) l [a; b])
          with (fold_left insertion l [a; b]).
        rewrite Hfold. reflexivity.
Qed.

End SortInterrupted.

Lemma py_lt_no_order (j k : json) :
  no_order_with_numbers j = true -> ranked k -> py_lt j k = None.
Proof.
  intros Hj [x Hk].
  destruct k; simpl in Hk; try discriminate;
    destruct j; try discriminate; reflexivity.
Qed.

(** X19.  The sort that is given up half way leaves its work behind.  When
    the records of the inputs are objects with numbers for timestamps up to
    one whose timestamp is a string, a list, an object or [null], the [data]
    of the result has the records before that one in order of timestamp
    (unless they were strictly descending, in which case they stay as they
    were), then that record and all the records after it in their input
    order.  This is the one-pass sort of fewer than 64 records. *)
Theorem interrupted_sort_leaves_sorted_prefix (now : string) (fs : filesystem)
    (file_paths : list string) (docs : list json) (numbers : list json)
    (odd : json) (after : list json) (r : json) :
  holds fs file_paths docs ->
  all_records docs = numbers ++ odd :: after ->
  (List.length (all_records docs) < 64)%nat ->
  numbers <> [] ->
  Forall (fun record => is_object record = true /\
                        is_number (timestamp_of record) = true) numbers ->
  is_object odd = true ->
  no_order_with_numbers (timestamp_of odd) = true ->
  merge_log_files now fs file_paths = Ok r ->
  field "data" r
  = Some (JArr ((if strictly_descending num_ltb (keyed numbers) then numbers
                 else map snd (stable_sort num_ltb (keyed numbers)))
                ++ odd :: after)).
Proof.
  intros Hh Hrecords Hshort Hne Hnum Hodd Hkind H.
  destruct (merge_log_files_ok now Hh H) as [Hlen Hv].
  destruct (merge_log_files_valid now Hh Hlen Hv)
    as (p & ps & base & rest & -> & -> & E).
  rewrite E in H. clear E.
  apply bind_ok in H as ([sorted finished] & Hs & H).
  apply bind_ok in H as (ms & _ & H). injection H as <-.
  rewrite field_data_merged. do 2 f_equal. cbn [fst].
  destruct (forallb is_object (all_records (JObj base :: rest))) eqn:Hobj.
  2:{ rewrite (sort_records_other _ Hobj) in Hs. discriminate. }
  assert (Hk : keyed (all_records (JObj base :: rest))
               = keyed numbers ++ (timestamp_of odd, odd) :: keyed after).
  { rewrite Hrecords. unfold keyed. now rewrite map_app. }
  assert (Hranked : Forall (keyP ranked) (keyed numbers)).
  { apply Forall_forall. intros e He. unfold keyed in He.
    apply in_map_iff in He as (y & <- & Hy). unfold keyP. simpl.
    apply is_number_ranked. rewrite Forall_forall in Hnum. now apply Hnum. }
  assert (Hkne : keyed numbers <> []).
  { destruct numbers; [congruence | discriminate]. }
  rewrite (sort_records_objects _ Hobj), Hk in Hs.
  assert (Hraises : forall k, ranked k ->
                              py_lt (fst (timestamp_of odd, odd)) k = None).
  { intros k Hk'. now apply py_lt_no_order. }
  rewrite (list_sort_interrupted py_lt num_ltb (timestamp_of odd, odd)
             py_lt_ranked num_ltb_irrefl num_ltb_trans num_ltb_negtrans
             Hraises (keyed after) Hkne Hranked) in Hs.
  injection Hs as <- _. rewrite map_app. cbn [map snd].
  rewrite keyed_records.
  destruct (strictly_descending num_ltb (keyed numbers));
    [now rewrite keyed_records | reflexivity].
Qed.

Lemma interrupted_sort_leaves_sorted_prefix_witness :
  field "data"
    (JObj [("data", JArr [record (JInt 1) "e"; record (JInt 2) "c";
                          record (JInt 3) "d"; record (JStr "late") "f";
                          record (JInt 0) "g"]);
           ("merged_sources",
            JObj [("merged_at", JStr "t"); ("base_file", JStr "3.json");
                  ("additional_files", JArr [JStr "4.json"]);
                  ("total_files_merged", JInt 2)])])
  = Some (JArr ((if strictly_descending num_ltb
                      (keyed [record (JInt 2) "c"; record (JInt 3) "d";
                              record (JInt 1) "e"])
                 then [record (JInt 2) "c"; record (JInt 3) "d";
                       record (JInt 1) "e"]
                 else map snd (stable_sort num_ltb
                                 (keyed [record (JInt 2) "c"; record (JInt 3) "d";
                                         record (JInt 1) "e"])))
                ++ record (JStr "late") "f" :: [record (JInt 0) "g"])).
Proof.
  apply (@interrupted_sort_leaves_sorted_prefix "t"
           (files [("3.json", doc_times_3); ("4.json", doc_times_4)])
           ["3.json"; "4.json"] [doc_times_3; doc_times_4]).
  - reflexivity.
  - reflexivity.
  - simpl. lia.
  - discriminate.
  - repeat constructor.
  - reflexivity.
  - reflexivity.
  - vm_compute. reflexivity.
Defined.
